(** * Catalog template store and precanned alert seeding

    A shallow embedding of [pkg/api/customization/catalog/store.go] and of
    the alert initialisation code that accompanies it.

    - [Catalog] embeds the template store: the [Transformer] that decorates
      a catalog-template payload with its version links, and the
      compatibility gate [templateVersionForRancherVersion].
    - [Alert] embeds the static table of precanned cluster alerts, the
      seeding routine [initClusterPreCanAlerts], [ProjectLifecycle] and
      [windowsNodeSyner].

    Calls into packages that live outside these files (the typed clients and
    listers, [catUtil], [hcommon], [settings], [apierrors], [fmt]) are taken
    as parameters, bundled in one class per module. *)

From Stdlib Require Import Ascii String.
From stdpp Require Import gmap strings list fin_maps pretty.

Set Warnings "-register-all".

(** The double-quote character, for the metric expressions that embed one. *)
Definition dquote : string := String (ascii_of_nat 34) EmptyString.

(* ===================================================================== *)
Module Catalog.

(** ** Dynamic values

    A payload is a [map[string]interface{}].  [value] lists the dynamic
    types such a payload holds; the code tells apart [[]interface{}],
    [map[string]interface{}], [int64] and [string] by type assertion.
    A [float64] is carried as its bit pattern: the code never computes
    with one. *)
Inductive value :=
| VNil
| VBool (b : bool)
| VInt64 (n : Z)
| VFloat64 (bits : Z)
| VString (s : string)
| VList (l : list value)
| VMap (m : gmap string value).

(** [m[k]] on a Go map: a missing key reads as the nil interface. *)
Definition index (m : gmap string value) (k : string) : value :=
  default VNil (m !! k).

(** ** Imported packages *)
Class Imports := {
  error : Type;
  (** [types.Schema] and [v3.CatalogTemplateVersion], both behind pointers *)
  Schema : Type;
  CatalogTemplateVersion : Type;
  (** [settings.ServerVersion.Get()] *)
  ServerVersion_Get : string;
  (** [catUtil.ReleaseServerVersion], [catUtil.ValidateRancherVersion] *)
  ReleaseServerVersion : string -> bool;
  ValidateRancherVersion : option CatalogTemplateVersion -> option error;
  (** [hcommon.ParseExternalID]: (templateVersionID, namespace, err) *)
  ParseExternalID : string -> string * string * option error;
  (** field and type names of the generated client *)
  CatalogTemplateFieldVersionLinks : string;
  CatalogTemplateFieldVersions : string;
  TemplateVersionType : string;
  (** [managementschema.Version] and [types.QueryOptions] *)
  APIVersion : Type;
  managementschema_Version : APIVersion;
  QueryOptions : Type;
  (** [fmt]'s [%v] on a float, a slice or a map *)
  fmt_compound : value -> string;
}.

Section Store.
Context `{Imports}.

(** [strconv.FormatInt(v, 10)] *)
Definition FormatInt (v : Z) : string := pretty v.

(** [fmt.Sprintf("%v", v)] *)
Definition fmt_v (v : value) : string :=
  match v with
  | VNil => "<nil>"
  | VBool true => "true"
  | VBool false => "false"
  | VInt64 n => FormatInt n
  | VString s => s
  | _ => fmt_compound v
  end.

(** [fmt.Sprintf("%v-%v", a, b)] with [b] a string *)
Definition Sprintf_v_v (a : value) (b : string) : string :=
  fmt_v a +:+ "-" +:+ b.

(** [types.APIContext], as far as the store uses it. *)
Record APIContext := {
  Schemas_Schema : APIVersion -> string -> option Schema;
  URLBuilder_ResourceLinkByID : option Schema -> string -> string;
}.

(** [templateStore]: the embedded [types.Store] plays no part in the
    transformer; the lister's [Get] returns Go's pair (object, error). *)
Record templateStore := {
  CatalogTemplateVersionLister_Get :
    string -> string -> option CatalogTemplateVersion * option error;
}.

(** [templateVersionForRancherVersion] *)
Definition templateVersionForRancherVersion
    (t : templateStore) (apiContext : APIContext) (externalID : string) : bool :=
  let rancherVersion := ServerVersion_Get in
  if negb (ReleaseServerVersion rancherVersion) then true
  else
    let '(templateVersionID, namespace, err) := ParseExternalID externalID in
    match err with
    | Some _ => true
    | None =>
      let '(template, err) :=
        CatalogTemplateVersionLister_Get t namespace templateVersionID in
      match err with
      | Some _ => true
      | None =>
        match ValidateRancherVersion template with
        | Some _ => false
        | None => true
        end
      end
    end.

(** The revision string of one version: [""] unless the [revision] entry
    is an [int64]. *)
Definition revisionOf (version : gmap string value) : string :=
  match index version "revision" with
  | VInt64 v => FormatInt v
  | _ => ""
  end.

(** The version ID the loop body computes. *)
Definition versionIDOf
    (resource version : gmap string value) (versionString : string) : string :=
  let revision := revisionOf version in
  let versionID := Sprintf_v_v (index resource "id") versionString in
  if decide (revision <> "") then Sprintf_v_v (index resource "id") revision
  else versionID.

(** One iteration of the loop of [extractVersionLinks].  [None] is a
    run-time panic: a failed single-value type assertion. *)
Definition extractVersionLink
    (t : templateStore) (apiContext : APIContext) (schema : option Schema)
    (resource : gmap string value) (r : gmap string value) (version : value)
    : option (gmap string value) :=
  match version with
  | VMap vm =>
    match index vm "version" with
    | VString versionString =>
      let versionID := versionIDOf resource vm versionString in
      match index vm "externalId" with
      | VString externalID =>
        if templateVersionForRancherVersion t apiContext externalID
        then Some (<[versionString :=
                       VString (URLBuilder_ResourceLinkByID apiContext schema versionID)]> r)
        else Some r
      | _ => None
      end
    | _ => None
    end
  | _ => None
  end.

(** The [for _, version := range versionMap] loop. *)
Fixpoint rangeVersions
    (t : templateStore) (apiContext : APIContext) (schema : option Schema)
    (resource : gmap string value) (r : gmap string value)
    (versionMap : list value) : option (gmap string value) :=
  match versionMap with
  | [] => Some r
  | version :: rest =>
    match extractVersionLink t apiContext schema resource r version with
    | Some r' => rangeVersions t apiContext schema resource r' rest
    | None => None
    end
  end.

(** [extractVersionLinks] *)
Definition extractVersionLinks
    (t : templateStore) (apiContext : APIContext)
    (resource : gmap string value) : option (gmap string value) :=
  let schema := Schemas_Schema apiContext managementschema_Version TemplateVersionType in
  let r : gmap string value := ∅ in
  match index resource CatalogTemplateFieldVersions with
  | VList versionMap => rangeVersions t apiContext schema resource r versionMap
  | _ => Some r
  end.

(** The [Transformer] closure installed by [GetTemplateStore]: it stores
    the computed links in the payload and returns the payload and a nil
    error. *)
Definition Transformer
    (ts : templateStore) (apiContext : APIContext) (schema : option Schema)
    (data : gmap string value) (opt : option QueryOptions)
    : option (gmap string value * option error) :=
  match extractVersionLinks ts apiContext data with
  | Some links => Some (<[CatalogTemplateFieldVersionLinks := VMap links]> data, None)
  | None => None
  end.

(** ** Reading a payload

    The versions a payload lists, and what the loop body reads from one
    of them. *)
Definition versionsOf (resource : gmap string value) : list value :=
  match index resource CatalogTemplateFieldVersions with
  | VList versionMap => versionMap
  | _ => []
  end.

(** A version on which no type assertion of the loop body fails: a map
    whose [version] and [externalId] entries are strings. *)
Definition wellFormedVersion (version : value) : bool :=
  match version with
  | VMap vm =>
    match index vm "version", index vm "externalId" with
    | VString _, VString _ => true
    | _, _ => false
    end
  | _ => false
  end.

Definition versionStringOf (version : value) : option string :=
  match version with
  | VMap vm =>
    match index vm "version" with
    | VString versionString => Some versionString
    | _ => None
    end
  | _ => None
  end.

(** The verdict of [templateVersionForRancherVersion] on a version's
    [externalId]. *)
Definition compatible
    (t : templateStore) (apiContext : APIContext) (version : value) : bool :=
  match version with
  | VMap vm =>
    match index vm "externalId" with
    | VString externalID => templateVersionForRancherVersion t apiContext externalID
    | _ => false
    end
  | _ => false
  end.

(** The resource link for a version's ID. *)
Definition linkOf
    (apiContext : APIContext) (resource : gmap string value) (version : value)
    : option value :=
  let schema := Schemas_Schema apiContext managementschema_Version TemplateVersionType in
  match version with
  | VMap vm =>
    match index vm "version" with
    | VString versionString =>
      Some (VString (URLBuilder_ResourceLinkByID apiContext schema
                       (versionIDOf resource vm versionString)))
    | _ => None
    end
  | _ => None
  end.

End Store.

(** ** A sample environment

    Stand-ins for the imported packages, to run the store on concrete
    payloads: every server version counts as a release, an external ID is
    its own template-version ID in the namespace [cattle-global-data], and
    a template version carries its validity. *)
Definition sampleImports : Imports := {|
  error := string;
  Schema := string;
  CatalogTemplateVersion := bool;
  ServerVersion_Get := "v2.3.0";
  ReleaseServerVersion := fun _ => true;
  ValidateRancherVersion := fun template =>
    match template with
    | Some true => None
    | _ => Some "rancher version not satisfied"
    end;
  ParseExternalID := fun externalID => (externalID, "cattle-global-data", None);
  CatalogTemplateFieldVersionLinks := "versionLinks";
  CatalogTemplateFieldVersions := "versions";
  TemplateVersionType := "templateVersion";
  APIVersion := unit;
  managementschema_Version := tt;
  QueryOptions := unit;
  fmt_compound := fun _ => "?";
|}.

(** A lister that knows two template versions, one of them invalid for
    the server. *)
Definition sampleLister (namespace name : string) : option bool * option string :=
  if decide (name = "old") then (Some false, None)
  else if decide (name = "new") then (Some true, None)
  else (None, Some "not found").

Definition sampleStore : @templateStore sampleImports :=
  @Build_templateStore sampleImports sampleLister.

Definition sampleContext : @APIContext sampleImports :=
  @Build_APIContext sampleImports
    (fun _ type => Some type)
    (fun schema id => "/v3/" +:+ default "" schema +:+ "s/" +:+ id).

Definition sampleVersion (version externalID : string) (revision : option Z) : value :=
  let vm : gmap string value :=
    <["version" := VString version]> (<["externalId" := VString externalID]> ∅) in
  VMap (match revision with
        | Some n => <["revision" := VInt64 n]> vm
        | None => vm
        end).

Definition samplePayload : gmap string value :=
  <["id" := VString "cattle-global-data:library-wordpress"]>
  (<["versions" := VList [sampleVersion "1.0.0" "old" None;
                          sampleVersion "2.0.0" "new" (Some 7%Z);
                          sampleVersion "3.0.0" "unknown" None]]> ∅).

(** ** More readings of a payload and more sample input *)
Section Writers.
Context `{Imports}.

(** A version writes the link under key [k]: its version string is [k]
    and [templateVersionForRancherVersion] accepts it. *)
Definition writes (t : templateStore) (apiContext : APIContext) (k : string)
    (version : value) : Prop :=
  versionStringOf version = Some k /\ compatible t apiContext version = true.

#[global] Instance writes_dec t apiContext k version :
  Decision (writes t apiContext k version).
Proof. unfold writes. apply _. Defined.

(** The versions of a list that write under [k], in list order. *)
Definition writersOf (t : templateStore) (apiContext : APIContext) (k : string)
    (versions : list value) : list value :=
  filter (writes t apiContext k) versions.

End Writers.

(** A server that is no release, as a development build. *)
Definition devImports : Imports := {|
  error := string;
  Schema := string;
  CatalogTemplateVersion := bool;
  ServerVersion_Get := "dev";
  ReleaseServerVersion := fun _ => false;
  ValidateRancherVersion := fun template =>
    match template with
    | Some true => None
    | _ => Some "rancher version not satisfied"
    end;
  ParseExternalID := fun externalID => (externalID, "cattle-global-data", None);
  CatalogTemplateFieldVersionLinks := "versionLinks";
  CatalogTemplateFieldVersions := "versions";
  TemplateVersionType := "templateVersion";
  APIVersion := unit;
  managementschema_Version := tt;
  QueryOptions := unit;
  fmt_compound := fun _ => "?";
|}.

Definition devStore : @templateStore devImports :=
  @Build_templateStore devImports sampleLister.

Definition devContext : @APIContext devImports :=
  @Build_APIContext devImports
    (fun _ type => Some type)
    (fun schema id => "/v3/" +:+ default "" schema +:+ "s/" +:+ id).

(** The sample payload with its versions in another order. *)
Definition samplePayloadReordered : gmap string value :=
  <["id" := VString "cattle-global-data:library-wordpress"]>
  (<["versions" := VList [sampleVersion "3.0.0" "unknown" None;
                          sampleVersion "1.0.0" "old" None;
                          sampleVersion "2.0.0" "new" (Some 7%Z)]]> ∅).

(** A payload that lists one version string twice, with two revisions. *)
Definition duplicatePayload : gmap string value :=
  <["id" := VString "cattle-global-data:library-wordpress"]>
  (<["versions" := VList [sampleVersion "1.0.0" "new" (Some 1%Z);
                          sampleVersion "1.0.0" "new" (Some 2%Z)]]> ∅).

(** What the [Transformer] returns on the sample payload. *)
Definition sampleLinks : gmap string value :=
  <["2.0.0" := VString "/v3/templateVersions/cattle-global-data:library-wordpress-7"]>
  (<["3.0.0" := VString "/v3/templateVersions/cattle-global-data:library-wordpress-3.0.0"]> ∅).

Definition sampleResult : gmap string value :=
  <["versionLinks" := VMap sampleLinks]> samplePayload.

End Catalog.

(* ===================================================================== *)
Module Alert.

(** ** The alert objects

    The structs of [v3], with the fields this code sets; a field left out
    of a composite literal is that type's zero value, and a pointer field
    is an [option]. *)
Record ObjectMeta := {
  Name : string;
  Namespace : string;
}.

Record TimingField := {
  GroupWaitSeconds : Z;
  GroupIntervalSeconds : Z;
  RepeatIntervalSeconds : Z;
}.

Record AlertStatus := { AlertState : string }.

Record CommonGroupField := {
  group_DisplayName : string;
  group_Description : string;
  group_TimingField : TimingField;
}.

Record ClusterGroupSpec := {
  cgs_ClusterName : string;
  cgs_CommonGroupField : CommonGroupField;
}.

Record ClusterAlertGroup := {
  cag_ObjectMeta : ObjectMeta;
  cag_Spec : ClusterGroupSpec;
  cag_Status : AlertStatus;
}.

Record CommonRuleField := {
  rule_DisplayName : string;
  rule_Severity : string;
  rule_Inherited : option bool;
  rule_TimingField : TimingField;
}.

(** [ThresholdValue] is a [float64]; every literal the code writes is an
    integer that a [float64] holds exactly. *)
Record MetricRule := {
  Expression : string;
  metric_Description : string;
  Duration : string;
  Comparison : string;
  ThresholdValue : Z;
}.

Record SystemServiceRule := { Condition : string }.

Record EventRule := {
  EventType : string;
  ResourceKind : string;
}.

Record WorkloadRule := {
  Selector : gmap string string;
  AvailablePercentage : Z;
}.

Record ClusterAlertRuleSpec := {
  cars_CommonRuleField : CommonRuleField;
  cars_ClusterName : string;
  cars_GroupName : string;
  cars_EventRule : option EventRule;
  cars_SystemServiceRule : option SystemServiceRule;
  cars_MetricRule : option MetricRule;
}.

Record ClusterAlertRule := {
  car_ObjectMeta : ObjectMeta;
  car_Spec : ClusterAlertRuleSpec;
  car_Status : AlertStatus;
}.

Record ProjectGroupSpec := {
  pgs_ProjectName : string;
  pgs_CommonGroupField : CommonGroupField;
}.

Record ProjectAlertGroup := {
  pag_ObjectMeta : ObjectMeta;
  pag_Spec : ProjectGroupSpec;
  pag_Status : AlertStatus;
}.

Record ProjectAlertRuleSpec := {
  pars_CommonRuleField : CommonRuleField;
  pars_ProjectName : string;
  pars_GroupName : string;
  pars_WorkloadRule : option WorkloadRule;
  pars_MetricRule : option MetricRule;
}.

Record ProjectAlertRule := {
  par_ObjectMeta : ObjectMeta;
  par_Spec : ProjectAlertRuleSpec;
  par_Status : AlertStatus;
}.

(** [entry]: a group and the rules seeded with it. *)
Record entry := {
  group : ClusterAlertGroup;
  rules : list ClusterAlertRule;
}.

(** Zero values and field updates. *)
Definition emptyMeta (name : string) : ObjectMeta :=
  {| Name := name; Namespace := "" |}.

Definition active : AlertStatus := {| AlertState := "active" |}.

Definition group_set_ClusterName (clusterName : string) (g : ClusterAlertGroup)
    : ClusterAlertGroup :=
  {| cag_ObjectMeta := cag_ObjectMeta g;
     cag_Spec := {| cgs_ClusterName := clusterName;
                    cgs_CommonGroupField := cgs_CommonGroupField (cag_Spec g) |};
     cag_Status := cag_Status g |}.

Definition rule_set_ClusterName (clusterName : string) (r : ClusterAlertRule)
    : ClusterAlertRule :=
  {| car_ObjectMeta := car_ObjectMeta r;
     car_Spec := {| cars_CommonRuleField := cars_CommonRuleField (car_Spec r);
                    cars_ClusterName := clusterName;
                    cars_GroupName := cars_GroupName (car_Spec r);
                    cars_EventRule := cars_EventRule (car_Spec r);
                    cars_SystemServiceRule := cars_SystemServiceRule (car_Spec r);
                    cars_MetricRule := cars_MetricRule (car_Spec r) |};
     car_Status := car_Status r |}.

Definition rule_set_GroupName (groupName : string) (r : ClusterAlertRule)
    : ClusterAlertRule :=
  {| car_ObjectMeta := car_ObjectMeta r;
     car_Spec := {| cars_CommonRuleField := cars_CommonRuleField (car_Spec r);
                    cars_ClusterName := cars_ClusterName (car_Spec r);
                    cars_GroupName := groupName;
                    cars_EventRule := cars_EventRule (car_Spec r);
                    cars_SystemServiceRule := cars_SystemServiceRule (car_Spec r);
                    cars_MetricRule := cars_MetricRule (car_Spec r) |};
     car_Status := car_Status r |}.

Definition nodeAlertGroupName : string := "node-alert".

(** [windowNodeLabel]: the selector built from one label. *)
Definition windowNodeLabel : gmap string string :=
  {[ "kubernetes.io/os" := "windows" ]}.

Definition inherited : bool := false.

(** ** Imported packages *)
Class Imports := {
  error : Type;
  (** [apierrors.IsNotFound], [apierrors.IsAlreadyExists] *)
  IsNotFound : error -> bool;
  IsAlreadyExists : error -> bool;
  (** [errors.Wrapf(err, format, args...)] of [github.com/pkg/errors] *)
  Wrapf : error -> string -> list string -> error;
  (** [common.GetGroupID] *)
  GetGroupID : string -> string -> string;
  (** severities and [defaultTimingField] of the [alert] package *)
  SeverityCritical : string;
  SeverityWarning : string;
  defaultTimingField : TimingField;
  (** comparisons of the [manager] package *)
  ComparisonNotEqual : string;
  ComparisonGreaterThan : string;
  ComparisonGreaterOrEqual : string;
  ComparisonHasValue : string;
  (** [metav1.NamespaceAll], [corev1.Node], and what a [v3.Project]
      holds besides its metadata *)
  NamespaceAll : string;
  Node : Type;
  ProjectBody : Type;
}.

Section Client.
Context `{Imports}.

(** [v3.Project] *)
Record Project := {
  project_ObjectMeta : ObjectMeta;
  project_Body : ProjectBody;
}.

(** ** The store client

    The typed clients and listers are interfaces supplied by the hosting
    platform.  A [Call] is one method call on one of them; [Reply] is what
    Go returns from it, the pair (result, error).  An object goes to the
    client by value: a client does not write through the pointer that
    [Create] is handed. *)
Inductive Call :=
| ClusterAlertGroupLister_Get (namespace name : string)
| ClusterAlertGroups_Create (o : ClusterAlertGroup)
| ClusterAlertRuleLister_Get (namespace name : string)
| ClusterAlertRules_Create (o : ClusterAlertRule)
| ProjectAlertGroups_Create (o : ProjectAlertGroup)
| ProjectAlertRules_Create (o : ProjectAlertRule)
| NodeLister_List (namespace : string) (selector : gmap string string).

Definition Reply (c : Call) : Type :=
  match c with
  | ClusterAlertGroupLister_Get _ _ => option ClusterAlertGroup * option error
  | ClusterAlertGroups_Create _ => option ClusterAlertGroup * option error
  | ClusterAlertRuleLister_Get _ _ => option ClusterAlertRule * option error
  | ClusterAlertRules_Create _ => option ClusterAlertRule * option error
  | ProjectAlertGroups_Create _ => option ProjectAlertGroup * option error
  | ProjectAlertRules_Create _ => option ProjectAlertRule * option error
  | NodeLister_List _ _ => list Node * option error
  end.

(** An argument of a [logrus.Warnf] call. *)
Inductive LogArg :=
| AString (s : string)
| AError (e : error).

(** A routine is a tree of client calls and log lines ending in a result. *)
Inductive Prog (A : Type) :=
| Ret (a : A)
| Do (c : Call) (k : Reply c -> Prog A)
| Warnf (format : string) (args : list LogArg) (k : Prog A).
Global Arguments Ret {A} a.
Global Arguments Do {A} c k.
Global Arguments Warnf {A} format args k.

Fixpoint bind {A B} (p : Prog A) (f : A -> Prog B) : Prog B :=
  match p with
  | Ret a => f a
  | Do c k => Do c (fun r => bind (k r) f)
  | Warnf format args k => Warnf format args (bind k f)
  end.

#[global] Instance Prog_ret : MRet Prog := @Ret.
#[global] Instance Prog_bind : MBind Prog := fun A B f p => bind p f.

Definition call (c : Call) : Prog (Reply c) := Do c Ret.
Definition logrus_Warnf (format : string) (args : list LogArg) : Prog unit :=
  Warnf format args (Ret tt).

(** [for _, x := range l { body }] *)
Fixpoint forEach {A} (l : list A) (body : A -> Prog unit) : Prog unit :=
  match l with
  | [] => Ret tt
  | x :: l' => body x ;; forEach l' body
  end.

(** ** Running a routine against a client

    A client answers each call from its state [W]; [run] returns the
    routine's result, the client's final state and what happened, in
    order. *)
Inductive Event :=
| Called (c : Call) (r : Reply c)
| Warned (format : string) (args : list LogArg).

Definition Handler (W : Type) : Type := forall c : Call, W -> Reply c * W.

Fixpoint run {W A} (h : Handler W) (p : Prog A) (w : W) : A * W * list Event :=
  match p with
  | Ret a => (a, w, [])
  | Do c k =>
    let '(r, w1) := h c w in
    let '(a, w2, t) := run h (k r) w1 in
    (a, w2, Called c r :: t)
  | Warnf format args k =>
    let '(a, w1, t) := run h k w in
    (a, w1, Warned format args :: t)
  end.

(** ** The static table

    [entries]: cluster alerting groups and rules for those groups. *)
Definition entries : list entry := [
  {|
    group := {|
      cag_ObjectMeta := emptyMeta "etcd-alert";
      cag_Spec := {|
        cgs_ClusterName := "";
        cgs_CommonGroupField := {|
          group_DisplayName := "A set of alerts for etcd";
          group_Description := "Alert for etcd leader existence, db size";
          group_TimingField := defaultTimingField |} |};
      cag_Status := active |};
    rules := [
      {| car_ObjectMeta := emptyMeta "no-leader";
         car_Spec := {|
           cars_CommonRuleField := {|
             rule_DisplayName := "Etcd member has no leader";
             rule_Severity := SeverityCritical;
             rule_Inherited := None;
             rule_TimingField := defaultTimingField |};
           cars_ClusterName := "";
           cars_GroupName := "";
           cars_EventRule := None;
           cars_SystemServiceRule := None;
           cars_MetricRule := Some {|
             Expression := "etcd_server_has_leader";
             metric_Description := "Etcd member has no leader";
             Duration := "3m";
             Comparison := ComparisonNotEqual;
             ThresholdValue := 1 |} |};
         car_Status := active |};
      {| car_ObjectMeta := emptyMeta "high-number-of-leader-changes";
         car_Spec := {|
           cars_CommonRuleField := {|
             rule_DisplayName := "A high number of leader changes within the etcd cluster are happening";
             rule_Severity := SeverityWarning;
             rule_Inherited := None;
             rule_TimingField := defaultTimingField |};
           cars_ClusterName := "";
           cars_GroupName := "";
           cars_EventRule := None;
           cars_SystemServiceRule := None;
           cars_MetricRule := Some {|
             Expression := "increase(etcd_server_leader_changes_seen_total[1h])";
             metric_Description := "Etcd instance has seen high number of leader changes within the last hour";
             Duration := "3m";
             Comparison := ComparisonGreaterThan;
             ThresholdValue := 3 |} |};
         car_Status := active |};
      {| car_ObjectMeta := emptyMeta "db-over-size";
         car_Spec := {|
           cars_CommonRuleField := {|
             rule_DisplayName := "Database usage close to the quota 500M";
             rule_Severity := SeverityWarning;
             rule_Inherited := None;
             rule_TimingField := defaultTimingField |};
           cars_ClusterName := "";
           cars_GroupName := "";
           cars_EventRule := None;
           cars_SystemServiceRule := None;
           cars_MetricRule := Some {|
             Expression := "sum(etcd_debugging_mvcc_db_total_size_in_bytes)";
             metric_Description := "Shows the etcd database size including free space waiting for defragmentation close to the quota";
             Duration := "3m";
             Comparison := ComparisonGreaterThan;
             ThresholdValue := 524288000 |} |};
         car_Status := active |};
      {| car_ObjectMeta := emptyMeta "etcd-system-service";
         car_Spec := {|
           cars_CommonRuleField := {|
             rule_DisplayName := "Etcd is unavailable";
             rule_Severity := SeverityCritical;
             rule_Inherited := Some inherited;
             rule_TimingField := {|
               GroupWaitSeconds := 600;
               GroupIntervalSeconds := 180;
               RepeatIntervalSeconds := 3600 |} |};
           cars_ClusterName := "";
           cars_GroupName := "";
           cars_EventRule := None;
           cars_SystemServiceRule := Some {| Condition := "etcd" |};
           cars_MetricRule := None |};
         car_Status := active |} ]
  |};
  {|
    group := {|
      cag_ObjectMeta := emptyMeta "kube-components-alert";
      cag_Spec := {|
        cgs_ClusterName := "";
        cgs_CommonGroupField := {|
          group_DisplayName := "A set of alerts for kube components";
          group_Description := "Alert for kube components api server, scheduler, controller manager";
          group_TimingField := defaultTimingField |} |};
      cag_Status := active |};
    rules := [
      {| car_ObjectMeta := emptyMeta "scheduler-system-service";
         car_Spec := {|
           cars_CommonRuleField := {|
             rule_DisplayName := "Scheduler is unavailable";
             rule_Severity := SeverityCritical;
             rule_Inherited := None;
             rule_TimingField := defaultTimingField |};
           cars_ClusterName := "";
           cars_GroupName := "";
           cars_EventRule := None;
           cars_SystemServiceRule := Some {| Condition := "scheduler" |};
           cars_MetricRule := None |};
         car_Status := active |};
      {| car_ObjectMeta := emptyMeta "controllermanager-system-service";
         car_Spec := {|
           cars_CommonRuleField := {|
             rule_DisplayName := "Controller Manager is unavailable";
             rule_Severity := SeverityCritical;
             rule_Inherited := None;
             rule_TimingField := defaultTimingField |};
           cars_ClusterName := "";
           cars_GroupName := "";
           cars_EventRule := None;
           cars_SystemServiceRule := Some {| Condition := "controller-manager" |};
           cars_MetricRule := None |};
         car_Status := active |} ]
  |};
  {|
    group := {|
      cag_ObjectMeta := emptyMeta "node-alert";
      cag_Spec := {|
        cgs_ClusterName := "";
        cgs_CommonGroupField := {|
          group_DisplayName := "A set of alerts for node";
          group_Description := "Alert for Node Memory, CPU, Disk Usage";
          group_TimingField := defaultTimingField |} |};
      cag_Status := active |};
    rules := [
      {| car_ObjectMeta := emptyMeta "node-disk-running-full";
         car_Spec := {|
           cars_CommonRuleField := {|
             rule_DisplayName := "Node disk is running full within 24 hours";
             rule_Severity := SeverityCritical;
             rule_Inherited := None;
             rule_TimingField := defaultTimingField |};
           cars_ClusterName := "";
           cars_GroupName := "";
           cars_EventRule := None;
           cars_SystemServiceRule := None;
           cars_MetricRule := Some {|
             Expression := "predict_linear(node_filesystem_free_bytes{mountpoint!~" +:+ dquote +:+ "^/etc/(?:resolv.conf|hosts|hostname)$" +:+ dquote +:+ "}[6h], 3600 * 24) < 0";
             metric_Description := "Device on node is running full within the next 24 hours";
             Duration := "10m";
             Comparison := ComparisonHasValue;
             ThresholdValue := 0 |} |};
         car_Status := active |};
      {| car_ObjectMeta := emptyMeta "high-memmory";
         car_Spec := {|
           cars_CommonRuleField := {|
             rule_DisplayName := "High node memory utilization";
             rule_Severity := SeverityWarning;
             rule_Inherited := None;
             rule_TimingField := defaultTimingField |};
           cars_ClusterName := "";
           cars_GroupName := "";
           cars_EventRule := None;
           cars_SystemServiceRule := None;
           cars_MetricRule := Some {|
             Expression := "(1 - sum(node_memory_MemAvailable_bytes) by (instance) / sum(node_memory_MemTotal_bytes) by (instance)) * 100";
             metric_Description := "Node memory utilization is over 80%";
             Duration := "3m";
             Comparison := ComparisonGreaterOrEqual;
             ThresholdValue := 80 |} |};
         car_Status := active |};
      {| car_ObjectMeta := emptyMeta "high-cpu-load";
         car_Spec := {|
           cars_CommonRuleField := {|
             rule_DisplayName := "High cpu load";
             rule_Severity := SeverityWarning;
             rule_Inherited := None;
             rule_TimingField := defaultTimingField |};
           cars_ClusterName := "";
           cars_GroupName := "";
           cars_EventRule := None;
           cars_SystemServiceRule := None;
           cars_MetricRule := Some {|
             Expression := "sum(node_load1) by (node)  / sum(machine_cpu_cores) by (node) * 100";
             metric_Description := "The cpu load is higher than 100";
             Duration := "3m";
             Comparison := ComparisonGreaterThan;
             ThresholdValue := 100 |} |};
         car_Status := active |} ]
  |};
  {|
    group := {|
      cag_ObjectMeta := emptyMeta "event-alert";
      cag_Spec := {|
        cgs_ClusterName := "";
        cgs_CommonGroupField := {|
          group_DisplayName := "A set of alerts when event happened";
          group_Description := "Alert for receiving resource event";
          group_TimingField := defaultTimingField |} |};
      cag_Status := active |};
    rules := [
      {| car_ObjectMeta := emptyMeta "deployment-event-alert";
         car_Spec := {|
           cars_CommonRuleField := {|
             rule_DisplayName := "Get warning deployment event";
             rule_Severity := SeverityWarning;
             rule_Inherited := None;
             rule_TimingField := defaultTimingField |};
           cars_ClusterName := "";
           cars_GroupName := "";
           cars_EventRule := Some {| EventType := "Warning"; ResourceKind := "Deployment" |};
           cars_SystemServiceRule := None;
           cars_MetricRule := None |};
         car_Status := active |} ]
  |}
].

(** ** Seeding the cluster alerts

    [initClusterPreCanAlerts].  The four interfaces of [initClusterAlerts]
    are the client the routine is run against. *)
Definition initClusterPreCanAlerts (clusterName : string) : Prog unit :=
  forEach entries (fun entry =>
    let group := group entry in
    '(_, err) ← call (ClusterAlertGroupLister_Get clusterName (Name (cag_ObjectMeta group)));
    group ←
      match err with
      | Some err =>
        if negb (IsNotFound err) then
          logrus_Warnf "Failed to get precan alert group %v: %v"
            [AString (Name (cag_ObjectMeta group)); AError err];;
          mret group
        else
          let group := group_set_ClusterName clusterName group in
          '(_, err) ← call (ClusterAlertGroups_Create group);
          match err with
          | Some err =>
            if negb (IsAlreadyExists err) then
              logrus_Warnf "Failed to create precan alert group %v: %v"
                [AString (Name (cag_ObjectMeta group)); AError err]
            else mret tt
          | None => mret tt
          end;;
          mret group
      | None => mret group
      end;
    forEach (rules entry) (fun rule =>
      '(_, err) ← call (ClusterAlertRuleLister_Get clusterName (Name (car_ObjectMeta rule)));
      match err with
      | Some err =>
        if negb (IsNotFound err) then
          logrus_Warnf "Failed to get precan alert rule %v: %v"
            [AString (Name (car_ObjectMeta rule)); AError err]
        else
          let rule := rule_set_ClusterName clusterName rule in
          let rule :=
            rule_set_GroupName
              (GetGroupID clusterName (Name (cag_ObjectMeta group))) rule in
          '(_, err) ← call (ClusterAlertRules_Create rule);
          match err with
          | Some err =>
            if negb (IsAlreadyExists err) then
              logrus_Warnf "Failed to create precan alert rule %v: %v"
                [AString (Name (car_ObjectMeta rule)); AError err]
            else mret tt
          | None => mret tt
          end
      | None => mret tt
      end)).

(** The two blocks of the loop body of [initClusterPreCanAlerts], each
    under a name of its own: the lookup and creation of the entry's group,
    which yields the local [group], and the body of the inner loop. *)
Definition groupStep (clusterName : string) (group : ClusterAlertGroup)
    : Prog ClusterAlertGroup :=
  '(_, err) ← call (ClusterAlertGroupLister_Get clusterName (Name (cag_ObjectMeta group)));
  match err with
  | Some err =>
    if negb (IsNotFound err) then
      logrus_Warnf "Failed to get precan alert group %v: %v"
        [AString (Name (cag_ObjectMeta group)); AError err];;
      mret group
    else
      let group := group_set_ClusterName clusterName group in
      '(_, err) ← call (ClusterAlertGroups_Create group);
      match err with
      | Some err =>
        if negb (IsAlreadyExists err) then
          logrus_Warnf "Failed to create precan alert group %v: %v"
            [AString (Name (cag_ObjectMeta group)); AError err]
        else mret tt
      | None => mret tt
      end;;
      mret group
  | None => mret group
  end.

Definition ruleStep (clusterName : string) (group : ClusterAlertGroup)
    (rule : ClusterAlertRule) : Prog unit :=
  '(_, err) ← call (ClusterAlertRuleLister_Get clusterName (Name (car_ObjectMeta rule)));
  match err with
  | Some err =>
    if negb (IsNotFound err) then
      logrus_Warnf "Failed to get precan alert rule %v: %v"
        [AString (Name (car_ObjectMeta rule)); AError err]
    else
      let rule := rule_set_ClusterName clusterName rule in
      let rule :=
        rule_set_GroupName
          (GetGroupID clusterName (Name (cag_ObjectMeta group))) rule in
      '(_, err) ← call (ClusterAlertRules_Create rule);
      match err with
      | Some err =>
        if negb (IsAlreadyExists err) then
          logrus_Warnf "Failed to create precan alert rule %v: %v"
            [AString (Name (car_ObjectMeta rule)); AError err]
        else mret tt
      | None => mret tt
      end
  | None => mret tt
  end.

(** ** Project lifecycle *)
Record ProjectLifecycle := { pl_clusterName : string }.

(** [ProjectLifecycle.Create]: create built-in project alerts. *)
Definition ProjectLifecycle_Create (l : ProjectLifecycle) (obj : Project)
    : Prog (option Project * option error) :=
  let name := "projectalert-workload-alert" in
  let projectName := Name (project_ObjectMeta obj) in
  let projectID :=
    Namespace (project_ObjectMeta obj) +:+ ":" +:+ Name (project_ObjectMeta obj) in
  let group := {|
    pag_ObjectMeta := {| Name := name; Namespace := projectName |};
    pag_Spec := {|
      pgs_ProjectName := projectID;
      pgs_CommonGroupField := {|
        group_DisplayName := "A set of alerts for workload, pod, container";
        group_Description := "Alert for cpu, memory, disk, network";
        group_TimingField := defaultTimingField |} |};
    pag_Status := active |} in
  '(_, err) ← call (ProjectAlertGroups_Create group);
  match err with
  | Some err =>
    if negb (IsAlreadyExists err) then
      logrus_Warnf "Failed to create built-in rules for deployment: %v" [AError err]
    else mret tt
  | None => mret tt
  end;;
  let name := "less-than-half-workload-available" in
  let rule := {|
    par_ObjectMeta := {| Name := name; Namespace := projectName |};
    par_Spec := {|
      pars_CommonRuleField := {|
        rule_DisplayName := "Less than half workload available";
        rule_Severity := SeverityCritical;
        rule_Inherited := None;
        rule_TimingField := defaultTimingField |};
      pars_ProjectName := projectID;
      pars_GroupName := GetGroupID projectName (Name (pag_ObjectMeta group));
      pars_WorkloadRule := Some {|
        Selector := {[ "app" := "workload" ]};
        AvailablePercentage := 50 |};
      pars_MetricRule := None |};
    par_Status := active |} in
  '(_, err) ← call (ProjectAlertRules_Create rule);
  match err with
  | Some err =>
    if negb (IsAlreadyExists err) then
      logrus_Warnf "Failed to create precan rules for %s: %v" [AString name; AError err]
    else mret tt
  | None => mret tt
  end;;
  let name := "memory-close-to-resource-limited" in
  let rule := {|
    par_ObjectMeta := {| Name := name; Namespace := projectName |};
    par_Spec := {|
      pars_CommonRuleField := {|
        rule_DisplayName := "Memory usage close to the quota";
        rule_Severity := SeverityWarning;
        rule_Inherited := None;
        rule_TimingField := defaultTimingField |};
      pars_ProjectName := projectID;
      pars_GroupName := GetGroupID projectName (Name (pag_ObjectMeta group));
      pars_WorkloadRule := None;
      pars_MetricRule := Some {|
        Expression :=
          "sum(container_memory_working_set_bytes) by (pod_name, container_name) / sum(label_join(label_join(kube_pod_container_resource_limits_memory_bytes,"
          +:+ dquote +:+ "pod_name" +:+ dquote +:+ ", " +:+ dquote +:+ dquote
          +:+ ", " +:+ dquote +:+ "pod" +:+ dquote +:+ "),"
          +:+ dquote +:+ "container_name" +:+ dquote +:+ ", " +:+ dquote +:+ dquote
          +:+ ", " +:+ dquote +:+ "container" +:+ dquote
          +:+ ")) by (pod_name, container_name)";
        metric_Description := "Container using memory close to the quota";
        Duration := "3m";
        Comparison := ComparisonGreaterThan;
        ThresholdValue := 1 |} |};
    par_Status := active |} in
  '(_, err) ← call (ProjectAlertRules_Create rule);
  match err with
  | Some err =>
    if negb (IsAlreadyExists err) then
      logrus_Warnf "Failed to create precan rules for %s: %v" [AString name; AError err]
    else mret tt
  | None => mret tt
  end;;
  mret (Some obj, None).

Definition ProjectLifecycle_Updated (l : ProjectLifecycle) (obj : Project)
    : Prog (option Project * option error) :=
  mret (Some obj, None).

Definition ProjectLifecycle_Remove (l : ProjectLifecycle) (obj : Project)
    : Prog (option Project * option error) :=
  mret (Some obj, None).

(** ** Windows nodes *)
Record windowsNodeSyner := { wns_clusterName : string }.

(** [windowsNodeSyner.initClusterWindowsAlert] *)
Definition initClusterWindowsAlert (l : windowsNodeSyner) : Prog (option error) :=
  let groupName := GetGroupID (wns_clusterName l) nodeAlertGroupName in
  let name := "windows-node-disk-running-full" in
  '(exsitWindowsAlert, err) ← call (ClusterAlertRuleLister_Get (wns_clusterName l) name);
  let rest : Prog (option error) :=
    match exsitWindowsAlert with
    | Some _ => mret None
    | None =>
      let rule := {|
        car_ObjectMeta := emptyMeta name;
        car_Spec := {|
          cars_CommonRuleField := {|
            rule_DisplayName := "Windows node disk is running full within 24 hours";
            rule_Severity := SeverityCritical;
            rule_Inherited := None;
            rule_TimingField := defaultTimingField |};
          cars_ClusterName := wns_clusterName l;
          cars_GroupName := groupName;
          cars_EventRule := None;
          cars_SystemServiceRule := None;
          cars_MetricRule := Some {|
            Expression :=
              "predict_linear(node_filesystem_free_bytes{job=~" +:+ dquote
              +:+ "expose-node-metrics-windows" +:+ dquote +:+ ", device!~" +:+ dquote
              +:+ "HarddiskVolume.+" +:+ dquote +:+ "}[6h], 3600 * 24) < 0";
            metric_Description := "Device on node is running full within the next 24 hours";
            Duration := "10m";
            Comparison := ComparisonHasValue;
            ThresholdValue := 0 |} |};
        car_Status := active |} in
      '(_, err) ← call (ClusterAlertRules_Create rule);
      match err with
      | Some err =>
        if negb (IsAlreadyExists err) then
          mret (Some (Wrapf err "Failed to create precan rules %s" [name]))
        else mret None
      | None => mret None
      end
    end in
  match err with
  | Some err =>
    if negb (IsNotFound err) then
      mret (Some (Wrapf err "Failed to get alert rules %s" [name]))
    else rest
  | None => rest
  end.

(** [windowsNodeSyner.Sync] *)
Definition windowsNodeSyner_Sync (l : windowsNodeSyner) (key : string) (obj : Node)
    : Prog (option Node * option error) :=
  '(windowsNodes, err) ← call (NodeLister_List NamespaceAll windowNodeLabel);
  match err with
  | Some err => mret (None, Some (Wrapf err "failed to list nodes" []))
  | None =>
    if negb (length windowsNodes =? 0)%nat then
      err ← initClusterWindowsAlert l;
      mret (Some obj, err)
    else mret (Some obj, None)
  end.

(** ** Reading a run

    What a list of events says about the store: the objects whose creation
    was requested, the keys looked up through a lister, the keys a lister
    reported not found, and the log. *)
Inductive Object :=
| OClusterGroup (o : ClusterAlertGroup)
| OClusterRule (o : ClusterAlertRule)
| OProjectGroup (o : ProjectAlertGroup)
| OProjectRule (o : ProjectAlertRule).

Inductive Kind := KClusterGroup | KClusterRule.

(** A lister key: kind, namespace, name. *)
Definition Key : Type := Kind * string * string.

Definition created (e : Event) : option Object :=
  match e with
  | Called (ClusterAlertGroups_Create o) _ => Some (OClusterGroup o)
  | Called (ClusterAlertRules_Create o) _ => Some (OClusterRule o)
  | Called (ProjectAlertGroups_Create o) _ => Some (OProjectGroup o)
  | Called (ProjectAlertRules_Create o) _ => Some (OProjectRule o)
  | _ => None
  end.

Definition lookedUp (e : Event) : option Key :=
  match e with
  | Called (ClusterAlertGroupLister_Get ns n) _ => Some (KClusterGroup, ns, n)
  | Called (ClusterAlertRuleLister_Get ns n) _ => Some (KClusterRule, ns, n)
  | _ => None
  end.

Definition isNotFound (err : option error) : bool :=
  match err with
  | Some e => IsNotFound e
  | None => false
  end.

Definition reportedNotFound (e : Event) : option Key :=
  match e with
  | Called (ClusterAlertGroupLister_Get ns n) (_, err) =>
    if isNotFound err then Some (KClusterGroup, ns, n) else None
  | Called (ClusterAlertRuleLister_Get ns n) (_, err) =>
    if isNotFound err then Some (KClusterRule, ns, n) else None
  | _ => None
  end.

(** A create call that came back with an error other than already-exists. *)
Definition createFailed (e : Event) : bool :=
  let failed (err : option error) :=
    match err with
    | Some e => negb (IsAlreadyExists e)
    | None => false
    end in
  match e with
  | Called (ClusterAlertGroups_Create _) (_, err) => failed err
  | Called (ClusterAlertRules_Create _) (_, err) => failed err
  | Called (ProjectAlertGroups_Create _) (_, err) => failed err
  | Called (ProjectAlertRules_Create _) (_, err) => failed err
  | _ => false
  end.

Definition isCalled (e : Event) : bool :=
  match e with
  | Called _ _ => true
  | Warned _ _ => false
  end.

Definition creates (t : list Event) : list Object := omap created t.
Definition lookups (t : list Event) : list Key := omap lookedUp t.
Definition notFounds (t : list Event) : list Key := omap reportedNotFound t.
Definition calls (t : list Event) : list Event := List.filter isCalled t.
Definition warnings (t : list Event) : list Event :=
  List.filter (fun e => negb (isCalled e)) t.
Definition failedCreates (t : list Event) : list Event := List.filter createFailed t.

(** The objects a table seeds into a cluster: each group with its cluster
    name filled in, followed by its rules with cluster name and group ID
    filled in. *)
Definition seededGroup (clusterName : string) (e : entry) : ClusterAlertGroup :=
  group_set_ClusterName clusterName (group e).

Definition seededRule (clusterName : string) (e : entry) (rule : ClusterAlertRule)
    : ClusterAlertRule :=
  rule_set_GroupName
    (GetGroupID clusterName (Name (cag_ObjectMeta (group e))))
    (rule_set_ClusterName clusterName rule).

Definition seedsOf (clusterName : string) (table : list entry) : list Object :=
  flat_map (fun e =>
    OClusterGroup (seededGroup clusterName e)
    :: map (fun rule => OClusterRule (seededRule clusterName e rule)) (rules e)) table.

Definition seeds (clusterName : string) : list Object := seedsOf clusterName entries.

(** The lister key under which a cluster object is looked up. *)
Definition keyOf (clusterName : string) (o : Object) : Key :=
  match o with
  | OClusterGroup g => (KClusterGroup, clusterName, Name (cag_ObjectMeta g))
  | OClusterRule r => (KClusterRule, clusterName, Name (car_ObjectMeta r))
  | OProjectGroup g => (KClusterGroup, clusterName, Name (pag_ObjectMeta g))
  | OProjectRule r => (KClusterRule, clusterName, Name (par_ObjectMeta r))
  end.

(** ** The reference reconciliation

    Written from the specification, not from the code: for each (group,
    rules) in the table, if not exists(key) then create(key, value).  The
    two operations are those of the abstract client: a key does not exist
    when its lister reports it not found. *)
Definition reference_notExists (k : Key) : Prog bool :=
  match k with
  | (KClusterGroup, ns, n) =>
    r ← call (ClusterAlertGroupLister_Get ns n); mret (isNotFound (snd r))
  | (KClusterRule, ns, n) =>
    r ← call (ClusterAlertRuleLister_Get ns n); mret (isNotFound (snd r))
  end.

Definition reference_create (value : Object) : Prog unit :=
  match value with
  | OClusterGroup o => call (ClusterAlertGroups_Create o);; mret tt
  | OClusterRule o => call (ClusterAlertRules_Create o);; mret tt
  | OProjectGroup o => call (ProjectAlertGroups_Create o);; mret tt
  | OProjectRule o => call (ProjectAlertRules_Create o);; mret tt
  end.

Definition reference_createIfAbsent (clusterName : string) (value : Object) : Prog unit :=
  absent ← reference_notExists (keyOf clusterName value);
  if (absent : bool) then reference_create value else mret tt.

Definition reference_reconcile (clusterName : string) : Prog unit :=
  forEach entries (fun e =>
    reference_createIfAbsent clusterName (OClusterGroup (seededGroup clusterName e));;
    forEach (rules e) (fun rule =>
      reference_createIfAbsent clusterName (OClusterRule (seededRule clusterName e rule)))).

(** A lister call, which a client is expected to answer without changing
    its state. *)
Definition isListerCall (c : Call) : bool :=
  match c with
  | ClusterAlertGroupLister_Get _ _ | ClusterAlertRuleLister_Get _ _
  | NodeLister_List _ _ => true
  | _ => false
  end.

(** The lister answers the lookup of [k] in state [w] with a nil error. *)
Definition foundAt {W} (h : Handler W) (w : W) (k : Key) : bool :=
  match k with
  | (KClusterGroup, ns, n) =>
    match snd (fst (h (ClusterAlertGroupLister_Get ns n) w)) with
    | None => true
    | Some _ => false
    end
  | (KClusterRule, ns, n) =>
    match snd (fst (h (ClusterAlertRuleLister_Get ns n) w)) with
    | None => true
    | Some _ => false
    end
  end.

(** Every lister call leaves the client's state as it was. *)
Definition readOnlyListers {W} (h : Handler W) : Prop :=
  forall c w, isListerCall c = true -> snd (h c w) = w.

Definition nameOf (o : Object) : string :=
  match o with
  | OClusterGroup g => Name (cag_ObjectMeta g)
  | OClusterRule r => Name (car_ObjectMeta r)
  | OProjectGroup g => Name (pag_ObjectMeta g)
  | OProjectRule r => Name (par_ObjectMeta r)
  end.

(** The objects of a list that carry a given name. *)
Definition named (name : string) (objs : list Object) : list Object :=
  List.filter (fun o => String.eqb (nameOf o) name) objs.

(** What a stretch of a run has to do with the objects it is to seed:
    it looks each of them up, in order; it creates some of them, those
    the lister reported not found; the reference does the same calls;
    and where the lister finds them all, nothing else happens. *)
Definition Seeding {W} (h : Handler W) (clusterName : string) (objs : list Object) (ref : Prog unit)
    (w w' : W) (t : list Event) : Prop :=
  lookups t = map (keyOf clusterName) objs
  /\ sublist (creates t) objs
  /\ map (keyOf clusterName) (creates t) = notFounds t
  /\ run h ref w = (tt, w', calls t)
  /\ (readOnlyListers h ->
      forallb (foundAt h w) (map (keyOf clusterName) objs) = true ->
      w' = w /\ creates t = [] /\ warnings t = []).

End Client.

(** ** A sample platform

    Stand-ins for the imported packages and two clients, to run the
    routines on concrete input: an in-memory store whose listers read what
    its clients have created, and a client on which every call fails. *)
Inductive sampleError :=
| NotFound (name : string)
| AlreadyExists (name : string)
| Internal (message : string)
| Wrapped (cause : sampleError) (format : string) (args : list string).

Definition sampleImports : Imports := {|
  error := sampleError;
  IsNotFound := fun e => match e with NotFound _ => true | _ => false end;
  IsAlreadyExists := fun e => match e with AlreadyExists _ => true | _ => false end;
  Wrapf := Wrapped;
  GetGroupID := fun namespace name => namespace +:+ ":" +:+ name;
  SeverityCritical := "critical";
  SeverityWarning := "warning";
  defaultTimingField := {|
    GroupWaitSeconds := 180;
    GroupIntervalSeconds := 180;
    RepeatIntervalSeconds := 3600 |};
  ComparisonNotEqual := "not-equal";
  ComparisonGreaterThan := "greater-than";
  ComparisonGreaterOrEqual := "greater-or-equal";
  ComparisonHasValue := "has-value";
  NamespaceAll := "";
  Node := string * gmap string string;
  ProjectBody := unit;
|}.

Record Store := {
  groups : gmap (string * string) ClusterAlertGroup;
  clusterRules : gmap (string * string) ClusterAlertRule;
  projectGroups : gmap (string * string) ProjectAlertGroup;
  projectRules : gmap (string * string) ProjectAlertRule;
  nodes : list (string * gmap string string);
}.

Definition emptyStore (nodes : list (string * gmap string string)) : Store := {|
  groups := ∅;
  clusterRules := ∅;
  projectGroups := ∅;
  projectRules := ∅;
  nodes := nodes |}.

Definition getFrom {T} (m : gmap (string * string) T) (namespace name : string)
    : option T * option sampleError :=
  match m !! (namespace, name) with
  | Some o => (Some o, None)
  | None => (None, Some (NotFound name))
  end.

Definition createIn {T} (m : gmap (string * string) T) (namespace name : string) (o : T)
    : (option T * option sampleError) * gmap (string * string) T :=
  match m !! (namespace, name) with
  | Some _ => ((None, Some (AlreadyExists name)), m)
  | None => ((Some o, None), <[(namespace, name) := o]> m)
  end.

Definition matches (selector : gmap string string) (node : string * gmap string string)
    : bool :=
  bool_decide (selector ⊆ snd node).

(** The in-memory client files a cluster object under its cluster's name
    and a project object under its namespace. *)
Definition memClient : @Handler sampleImports Store :=
  fun c =>
    match c as c0 return Store -> @Reply sampleImports c0 * Store with
    | ClusterAlertGroupLister_Get namespace name => fun w =>
      (getFrom (groups w) namespace name, w)
    | ClusterAlertGroups_Create o => fun w =>
      let '(r, m) :=
        createIn (groups w) (cgs_ClusterName (cag_Spec o)) (Name (cag_ObjectMeta o)) o in
      (r, {| groups := m; clusterRules := clusterRules w;
             projectGroups := projectGroups w; projectRules := projectRules w;
             nodes := nodes w |})
    | ClusterAlertRuleLister_Get namespace name => fun w =>
      (getFrom (clusterRules w) namespace name, w)
    | ClusterAlertRules_Create o => fun w =>
      let '(r, m) :=
        createIn (clusterRules w) (cars_ClusterName (car_Spec o))
          (Name (car_ObjectMeta o)) o in
      (r, {| groups := groups w; clusterRules := m;
             projectGroups := projectGroups w; projectRules := projectRules w;
             nodes := nodes w |})
    | ProjectAlertGroups_Create o => fun w =>
      let '(r, m) :=
        createIn (projectGroups w) (Namespace (pag_ObjectMeta o))
          (Name (pag_ObjectMeta o)) o in
      (r, {| groups := groups w; clusterRules := clusterRules w;
             projectGroups := m; projectRules := projectRules w;
             nodes := nodes w |})
    | ProjectAlertRules_Create o => fun w =>
      let '(r, m) :=
        createIn (projectRules w) (Namespace (par_ObjectMeta o))
          (Name (par_ObjectMeta o)) o in
      (r, {| groups := groups w; clusterRules := clusterRules w;
             projectGroups := projectGroups w; projectRules := m;
             nodes := nodes w |})
    | NodeLister_List namespace selector => fun w =>
      ((List.filter (matches selector) (nodes w), None), w)
    end.

Definition failingClient : @Handler sampleImports unit :=
  fun c =>
    match c as c0 return unit -> @Reply sampleImports c0 * unit with
    | NodeLister_List _ _ => fun w => (([], Some (Internal "unavailable")), w)
    | _ => fun w => ((None, Some (Internal "unavailable")), w)
    end.

Definition linuxNode : string * gmap string string :=
  ("worker-1", {[ "kubernetes.io/os" := "linux" ]}).

Definition windowsNode : string * gmap string string :=
  ("worker-2", {[ "kubernetes.io/os" := "windows" ]}).

(** The store of cluster [c-1] after the alerts were seeded once. *)
Definition seededStore : Store :=
  snd (fst (@run sampleImports _ _ memClient
              (@initClusterPreCanAlerts sampleImports "c-1") (emptyStore [linuxNode]))).

Definition sampleProject : @Project sampleImports :=
  @Build_Project sampleImports {| Name := "p-1"; Namespace := "c-1" |} tt.

(** ** More readings of a run, and clients whose listers see their
    creations *)
Section Observations.
Context `{Imports}.

(** A lister lookup that came back with an error other than not-found. *)
Definition lookupFailed (e : Event) : bool :=
  let failed (err : option error) :=
    match err with
    | Some e => negb (IsNotFound e)
    | None => false
    end in
  match e with
  | Called (ClusterAlertGroupLister_Get _ _) (_, err) => failed err
  | Called (ClusterAlertRuleLister_Get _ _) (_, err) => failed err
  | _ => false
  end.

Definition failedLookups (t : list Event) : list Event := List.filter lookupFailed t.

(** The names of the groups of the table. *)
Definition groupNames : list string :=
  map (fun e => Name (cag_ObjectMeta (group e))) entries.

(** A rule with exactly one of its three rule kinds set. *)
Definition oneRuleKind (r : ClusterAlertRule) : bool :=
  match cars_EventRule (car_Spec r), cars_SystemServiceRule (car_Spec r),
        cars_MetricRule (car_Spec r) with
  | Some _, None, None | None, Some _, None | None, None, Some _ => true
  | _, _, _ => false
  end.

(** What every object seeded into a cluster looks like: it is active and
    carries the cluster's name; a group has a name of the table; a rule
    has one rule kind and the ID of a group of the table in the same
    cluster. *)
Definition wellSeeded (clusterName : string) (o : Object) : Prop :=
  match o with
  | OClusterGroup g =>
    cgs_ClusterName (cag_Spec g) = clusterName
    /\ AlertState (cag_Status g) = "active"
    /\ Name (cag_ObjectMeta g) ∈ groupNames
  | OClusterRule r =>
    cars_ClusterName (car_Spec r) = clusterName
    /\ AlertState (car_Status r) = "active"
    /\ oneRuleKind r = true
    /\ cars_GroupName (car_Spec r) ∈ map (GetGroupID clusterName) groupNames
  | _ => False
  end.

(** The error of a failed call: any error of the node lister, a lister
    error other than not-found, a creation error other than
    already-exists. *)
Definition failure (e : Event) : option error :=
  let unlessNotFound (err : option error) :=
    match err with
    | Some e => if IsNotFound e then None else Some e
    | None => None
    end in
  let unlessAlreadyExists (err : option error) :=
    match err with
    | Some e => if IsAlreadyExists e then None else Some e
    | None => None
    end in
  match e with
  | Called (NodeLister_List _ _) (_, err) => err
  | Called (ClusterAlertGroupLister_Get _ _) (_, err) => unlessNotFound err
  | Called (ClusterAlertRuleLister_Get _ _) (_, err) => unlessNotFound err
  | Called (ClusterAlertGroups_Create _) (_, err) => unlessAlreadyExists err
  | Called (ClusterAlertRules_Create _) (_, err) => unlessAlreadyExists err
  | Called (ProjectAlertGroups_Create _) (_, err) => unlessAlreadyExists err
  | Called (ProjectAlertRules_Create _) (_, err) => unlessAlreadyExists err
  | Warned _ _ => None
  end.

(** The node lister came back with an error. *)
Definition listFailed (e : Event) : bool :=
  match e with
  | Called (NodeLister_List _ _) (_, Some _) => true
  | _ => false
  end.





End Observations.

End Alert.

(* ===================================================================== *)
(** * Properties of the template store *)
Module CatalogProofs.
Import Catalog.

Section Properties.
Context `{Imports}.

(** On a well-formed version the loop body does not panic: it adds the
    link under the version string when the version is compatible, and
    leaves the map alone otherwise. *)
Lemma extractVersionLink_wellFormed t ctx schema resource r version :
  wellFormedVersion version = true ->
  exists k,
    versionStringOf version = Some k /\
    extractVersionLink t ctx schema resource r version =
      Some (if compatible t ctx version
            then <[k := VString (URLBuilder_ResourceLinkByID ctx schema
                                   (match version with
                                    | VMap vm => versionIDOf resource vm k
                                    | _ => k end))]> r
            else r).
Proof.
  destruct version as [| | | | |l|vm]; simpl; try discriminate.
  destruct (index vm "version") as [| | | |k| |]; try discriminate.
  destruct (index vm "externalId") as [| | | |e| |]; try discriminate.
  intros _. exists k. split; [reflexivity|].
  destruct (templateVersionForRancherVersion t ctx e); reflexivity.
Qed.




(** The loop invariant: what the map holds after the loop is what it held
    before, overwritten by the links of the compatible versions. *)
Lemma rangeVersions_spec t ctx resource (versionMap : list value) :
  let schema := Schemas_Schema ctx managementschema_Version TemplateVersionType in
  forallb wellFormedVersion versionMap = true ->
  forall r : gmap string value,
  exists r' : gmap string value,
    rangeVersions t ctx schema resource r versionMap = Some r'
    /\ (forall k u, r' !! k = Some u ->
          r !! k = Some u \/
          exists v, v ∈ versionMap /\ versionStringOf v = Some k
                    /\ compatible t ctx v = true /\ linkOf ctx resource v = Some u)
    /\ (forall k, is_Some (r !! k) -> is_Some (r' !! k))
    /\ (forall v k, v ∈ versionMap -> versionStringOf v = Some k ->
          compatible t ctx v = true -> is_Some (r' !! k)).
Proof.
  intros schema. induction versionMap as [|v l IH]; intros Hwf r.
  - exists r. split; [reflexivity|]. split; [auto|]. split; [auto|].
    intros v k Hin. inversion Hin.
  - simpl in Hwf. apply andb_prop in Hwf as [Hv Hl].
    destruct (extractVersionLink_wellFormed t ctx schema resource r v Hv)
      as (k0 & Hk0 & Hstep).
    simpl. rewrite Hstep.
    destruct (IH Hl (if compatible t ctx v
            then <[k0 := VString (URLBuilder_ResourceLinkByID ctx schema
                                   (match v with
                                    | VMap vm => versionIDOf resource vm k0
                                    | _ => k0 end))]> r
            else r)) as (r' & Hrun & Hfrom & Hkeep & Hall).
    exists r'. split; [exact Hrun|]. split; [|split].
    + intros k u Hku. destruct (Hfrom k u Hku) as [Hr | (v' & Hin & ?)].
      * destruct (compatible t ctx v) eqn:Hc; [|by left].
        destruct (decide (k0 = k)) as [->|Hne].
        -- rewrite lookup_insert_eq in Hr. right. exists v.
           split; [by left|]. split; [done|]. split; [done|].
           destruct v as [| | | | | |vm]; try discriminate.
           unfold linkOf. simpl in Hk0.
           destruct (index vm "version"); try discriminate.
           by simplify_eq.
        -- rewrite lookup_insert_ne in Hr by done. by left.
      * right. exists v'. split; [by right|done].
    + intros k Hk. apply Hkeep.
      destruct (compatible t ctx v); [|done].
      destruct (decide (k0 = k)) as [->|Hne].
      * rewrite lookup_insert_eq. by eexists.
      * by rewrite lookup_insert_ne.
    + intros v' k Hin Hvs Hc. apply elem_of_cons in Hin as [->|Hin].
      * apply Hkeep. rewrite Hc. rewrite Hk0 in Hvs. simplify_eq.
        rewrite lookup_insert_eq. by eexists.
      * by eapply Hall.
Qed.

(** C1: on a catalog-template payload, one that lists its versions as
    maps with a string [version] and a string [externalId], the
    [Transformer] returns the payload with its [versionLinks] field set to
    the map that [extractVersionLinks] computes, and a nil error.  Every key of that
    map is the version string of a listed version that
    [templateVersionForRancherVersion] reports compatible, and its value
    is the resource link for that version's ID; every compatible version
    has its key; a version string all of whose versions are incompatible
    is not a key. *)
Theorem Transformer_versionLinks ts ctx schema data opt :
  forallb wellFormedVersion (versionsOf data) = true ->
  exists links : gmap string value,
    extractVersionLinks ts ctx data = Some links
    /\ Transformer ts ctx schema data opt
       = Some (<[CatalogTemplateFieldVersionLinks := VMap links]> data, None)
    /\ (forall k u, links !! k = Some u ->
          exists v, v ∈ versionsOf data /\ versionStringOf v = Some k
                    /\ compatible ts ctx v = true /\ linkOf ctx data v = Some u)
    /\ (forall v k, v ∈ versionsOf data -> versionStringOf v = Some k ->
          compatible ts ctx v = true -> is_Some (links !! k))
    /\ (forall k,
          (forall v, v ∈ versionsOf data -> versionStringOf v = Some k ->
                     compatible ts ctx v = false) ->
          links !! k = None).
Proof.
  intros Hwf.
  assert (exists links : gmap string value,
    extractVersionLinks ts ctx data = Some links
    /\ (forall k u, links !! k = Some u ->
          exists v, v ∈ versionsOf data /\ versionStringOf v = Some k
                    /\ compatible ts ctx v = true /\ linkOf ctx data v = Some u)
    /\ (forall v k, v ∈ versionsOf data -> versionStringOf v = Some k ->
          compatible ts ctx v = true -> is_Some (links !! k)))
    as (links & Hex & Honly & Hall).
  { unfold extractVersionLinks, versionsOf in *.
    destruct (index data CatalogTemplateFieldVersions) as [| | | | |l|];
      try (exists ∅; split; [reflexivity|]; split;
           [intros k u Hk; by rewrite lookup_empty in Hk
           |intros v k Hin; inversion Hin]).
    destruct (rangeVersions_spec ts ctx data l Hwf ∅)
      as (r' & Hrun & Hfrom & _ & Hall).
    exists r'. split; [exact Hrun|]. split; [|exact Hall].
    intros k u Hk. destruct (Hfrom k u Hk) as [He|?]; [|done].
    by rewrite lookup_empty in He. }
  exists links. split; [exact Hex|]. split.
  { unfold Transformer. by rewrite Hex. }
  split; [exact Honly|]. split; [exact Hall|].
  intros k Hnone. destruct (links !! k) as [u|] eqn:Hk; [|done].
  destruct (Honly k u Hk) as (v & Hin & Hvs & Hc & _).
  rewrite (Hnone v Hin Hvs) in Hc. discriminate.
Qed.

(** C2: [templateVersionForRancherVersion] answers false exactly when the
    server version is a release, the external ID parses, the lister
    returns the template version, and [ValidateRancherVersion] rejects it.
    When the server version is no release, when [ParseExternalID] fails
    and when the lister's [Get] fails, it answers true. *)
Theorem templateVersionForRancherVersion_fail_open t ctx externalID :
  (templateVersionForRancherVersion t ctx externalID = false <->
     ReleaseServerVersion ServerVersion_Get = true /\
     exists templateVersionID namespace template e,
       ParseExternalID externalID = (templateVersionID, namespace, None)
       /\ CatalogTemplateVersionLister_Get t namespace templateVersionID = (template, None)
       /\ ValidateRancherVersion template = Some e)
  /\ (ReleaseServerVersion ServerVersion_Get = false ->
        templateVersionForRancherVersion t ctx externalID = true)
  /\ (forall templateVersionID namespace e,
        ParseExternalID externalID = (templateVersionID, namespace, Some e) ->
        templateVersionForRancherVersion t ctx externalID = true)
  /\ (forall templateVersionID namespace template e,
        ParseExternalID externalID = (templateVersionID, namespace, None) ->
        CatalogTemplateVersionLister_Get t namespace templateVersionID = (template, Some e) ->
        templateVersionForRancherVersion t ctx externalID = true).
Proof.
  unfold templateVersionForRancherVersion.
  destruct (ReleaseServerVersion ServerVersion_Get) eqn:Hrel; simpl.
  2: { split; [|by auto]. split; [discriminate|]. by intros [? _]. }
  destruct (ParseExternalID externalID) as [[id ns] [perr|]] eqn:Hparse.
  { split; [|by auto]. split; [discriminate|].
    intros [_ (?&?&?&?&?&_)]. congruence. }
  destruct (CatalogTemplateVersionLister_Get t ns id) as [template [gerr|]] eqn:Hget.
  { split; [|by auto]. split; [discriminate|].
    intros [_ (?&?&?&?&?&?&_)]. simplify_eq. congruence. }
  destruct (ValidateRancherVersion template) as [verr|] eqn:Hval.
  - split.
    + split; [|done]. intros _. split; [done|]. by exists id, ns, template, verr.
    + split; [discriminate|]. split; [intros; simplify_eq|].
      intros. simplify_eq. congruence.
  - split.
    + split; [discriminate|]. intros [_ (?&?&?&?&?&?&?)]. simplify_eq. congruence.
    + by auto.
Qed.
End Properties.

(** The store on the sample payload: version 1.0.0 is invalid for the
    server and gets no link; 2.0.0 is linked by its revision; 3.0.0 is
    unknown to the lister and is linked all the same. *)
Example sample_versionLinks :
  map_to_list <$> @extractVersionLinks sampleImports sampleStore sampleContext samplePayload
  = Some [ ("3.0.0", VString "/v3/templateVersions/cattle-global-data:library-wordpress-3.0.0");
           ("2.0.0", VString "/v3/templateVersions/cattle-global-data:library-wordpress-7") ].
Proof. vm_compute. reflexivity. Qed.

(** A version that is no map makes the loop panic. *)
Example sample_panic :
  @extractVersionLinks sampleImports sampleStore sampleContext
    (<["versions" := VList [VString "1.0.0"]]> ∅) = None.
Proof. vm_compute. reflexivity. Qed.

Lemma Transformer_versionLinks_witness :
  exists links : gmap string value,
    @Transformer sampleImports sampleStore sampleContext None samplePayload None
      = Some (<["versionLinks" := VMap links]> samplePayload, None)
    /\ links !! "1.0.0" = None
    /\ is_Some (links !! "2.0.0").
Proof.
  destruct (@Transformer_versionLinks sampleImports sampleStore sampleContext
              None samplePayload None eq_refl)
    as (links & _ & Hdata & _ & Hall & Hnone).
  exists links. split; [exact Hdata|]. split.
  - apply Hnone. intros v Hin Hvs.
    apply list_elem_of_In in Hin. vm_compute in Hin.
    destruct Hin as [<-|[<-|[<-|[]]]]; vm_compute in Hvs; try discriminate.
    vm_compute. reflexivity.
  - apply (Hall (sampleVersion "2.0.0" "new" (Some 7%Z))).
    + apply list_elem_of_In. vm_compute. auto.
    + vm_compute. reflexivity.
    + vm_compute. reflexivity.
Defined.

End CatalogProofs.

(* ===================================================================== *)
(** * Properties of the alert seeding *)
Module AlertProofs.
Import Alert.

Section Properties.
Context `{Imports}.

(** C6: among the objects seeded into a cluster, the one named
    high-number-of-leader-changes is a rule of the etcd-alert group whose
    metric expression is increase(etcd_server_leader_changes_seen_total[1h]),
    compared greater-than against the threshold 3, with warning
    severity. *)
Theorem etcd_high_number_of_leader_changes clusterName :
  exists rule metric,
    named "high-number-of-leader-changes" (seeds clusterName) = [OClusterRule rule]
    /\ cars_GroupName (car_Spec rule) = GetGroupID clusterName "etcd-alert"
    /\ cars_MetricRule (car_Spec rule) = Some metric
    /\ Expression metric = "increase(etcd_server_leader_changes_seen_total[1h])"
    /\ Comparison metric = ComparisonGreaterThan
    /\ ThresholdValue metric = 3%Z
    /\ rule_Severity (cars_CommonRuleField (car_Spec rule)) = SeverityWarning.
Proof. do 2 eexists. repeat split. Qed.

(** C7: among the objects seeded into a cluster, the one named
    high-memmory is a rule of the node-alert group whose metric expression
    is the node memory utilization in percent, compared greater-or-equal
    against the threshold 80, with warning severity. *)
Theorem node_high_memmory clusterName :
  exists rule metric,
    named "high-memmory" (seeds clusterName) = [OClusterRule rule]
    /\ cars_GroupName (car_Spec rule) = GetGroupID clusterName "node-alert"
    /\ cars_MetricRule (car_Spec rule) = Some metric
    /\ Expression metric =
       "(1 - sum(node_memory_MemAvailable_bytes) by (instance) / sum(node_memory_MemTotal_bytes) by (instance)) * 100"
    /\ Comparison metric = ComparisonGreaterOrEqual
    /\ ThresholdValue metric = 80%Z
    /\ rule_Severity (cars_CommonRuleField (car_Spec rule)) = SeverityWarning.
Proof. do 2 eexists. repeat split. Qed.

(** No two seeded objects share a lister key. *)
Lemma seeds_keys_NoDup clusterName :
  NoDup (map (keyOf clusterName) (seeds clusterName)).
Proof.
  cbn.
  repeat (apply NoDup_cons; split;
          [intros Hin;
           repeat (apply elem_of_cons in Hin as [Hin|Hin]; [discriminate|]);
           by apply elem_of_nil in Hin|]).
  apply NoDup_nil_2.
Qed.

Section Running.
Context {W : Type} (h : Handler W).

(** Running a sequence: the second routine starts from the state the
    first one left, and the events follow one another. *)
Lemma run_bind {A B} (p : Prog A) (f : A -> Prog B) (w : W) :
  run h (p ≫= f) w =
  let '(a, w1, t1) := run h p w in
  let '(b, w2, t2) := run h (f a) w1 in
  (b, w2, t1 ++ t2).
Proof.
  revert w. induction p as [a|c k IH|fmt args k IH]; intros w.
  - simpl. change (mbind f (Ret a)) with (f a).
    destruct (run h (f a) w) as [[b w2] t2]. reflexivity.
  - change (mbind f (Do c k)) with (Do c (fun r => k r ≫= f)).
    simpl. destruct (h c w) as [r w1]. rewrite IH.
    destruct (run h (k r) w1) as [[a w2] t1].
    destruct (run h (f a) w2) as [[b w3] t2]. reflexivity.
  - change (mbind f (Warnf fmt args k)) with (Warnf fmt args (k ≫= f)).
    simpl. rewrite IH.
    destruct (run h k w) as [[a w2] t1].
    destruct (run h (f a) w2) as [[b w3] t2]. reflexivity.
Qed.

(** Induction over the iterations of a loop. *)
Lemma forEach_run_ind {A} (body : A -> Prog unit)
    (Q : list A -> W -> W -> list Event -> Prop) :
  (forall w, Q [] w w []) ->
  (forall x l w w1 w2 t1 t2,
      run h (body x) w = (tt, w1, t1) -> Q l w1 w2 t2 -> Q (x :: l) w w2 (t1 ++ t2)) ->
  forall l w, exists w' t, run h (forEach l body) w = (tt, w', t) /\ Q l w w' t.
Proof.
  intros Hnil Hcons l. induction l as [|x l IH]; intros w.
  - exists w, []. split; [reflexivity|apply Hnil].
  - simpl. rewrite run_bind.
    destruct (run h (body x) w) as [[[] w1] t1] eqn:Hx.
    destruct (IH w1) as (w2 & t2 & Hrun & HQ). rewrite Hrun.
    exists w2, (t1 ++ t2). split; [reflexivity|]. by eapply Hcons.
Qed.

(** Loops whose bodies run alike run alike. *)
Lemma run_forEach_ext {A} (body1 body2 : A -> Prog unit) :
  (forall x w, run h (body1 x) w = run h (body2 x) w) ->
  forall l w, run h (forEach l body1) w = run h (forEach l body2) w.
Proof.
  intros Hext l. induction l as [|x l IH]; intros w; [reflexivity|].
  simpl. rewrite !run_bind, Hext.
  destruct (run h (body2 x) w) as [[[] w1] t1]. by rewrite IH.
Qed.

(** The routine runs as the loop over the table of its two blocks. *)
Lemma initClusterPreCanAlerts_steps clusterName w :
  run h (initClusterPreCanAlerts clusterName) w =
  run h (forEach entries (fun entry =>
           group ← groupStep clusterName (group entry);
           forEach (rules entry) (ruleStep clusterName group))) w.
Proof.
  unfold initClusterPreCanAlerts. apply run_forEach_ext. clear w.
  intros entry w. simpl.
  destruct (h (ClusterAlertGroupLister_Get clusterName
                (Name (cag_ObjectMeta (group entry)))) w) as [[o err] w1].
  reflexivity.
Qed.

Lemma Seeding_nil clusterName w : Seeding h clusterName [] (Ret tt) w w [].
Proof. repeat split; auto using sublist_nil. Qed.

Lemma Seeding_app clusterName objs1 objs2 ref1 ref2 w w1 w2 t1 t2 :
  Seeding h clusterName objs1 ref1 w w1 t1 ->
  Seeding h clusterName objs2 ref2 w1 w2 t2 ->
  Seeding h clusterName (objs1 ++ objs2) (ref1 ;; ref2) w w2 (t1 ++ t2).
Proof.
  intros (Hl1 & Hs1 & Hn1 & Hr1 & Hf1) (Hl2 & Hs2 & Hn2 & Hr2 & Hf2).
  unfold Seeding, lookups, creates, notFounds, calls, warnings in *.
  rewrite !omap_app, !List.filter_app, !map_app.
  split; [by rewrite Hl1, Hl2|]. split; [by apply sublist_app|].
  split; [by rewrite Hn1, Hn2|]. split.
  - rewrite run_bind, Hr1, Hr2. reflexivity.
  - intros Hro Hall. rewrite forallb_app in Hall.
    apply andb_prop in Hall as [Hall1 Hall2].
    destruct (Hf1 Hro Hall1) as (-> & -> & ->).
    destruct (Hf2 Hro Hall2) as (-> & -> & ->). done.
Qed.

(** The group block: one lookup, then a creation when the lister reported
    the group not found; the group keeps its name. *)
Lemma groupStep_run clusterName g w :
  exists g' w' t,
    run h (groupStep clusterName g) w = (g', w', t)
    /\ Name (cag_ObjectMeta g') = Name (cag_ObjectMeta g)
    /\ Seeding h clusterName [OClusterGroup (group_set_ClusterName clusterName g)]
         (reference_createIfAbsent clusterName
            (OClusterGroup (group_set_ClusterName clusterName g))) w w' t.
Proof.
  unfold Seeding, groupStep, reference_createIfAbsent, foundAt. simpl.
  pose proof (fun Hro : readOnlyListers h =>
    Hro (ClusterAlertGroupLister_Get clusterName (Name (cag_ObjectMeta g))) w eq_refl) as Hro.
  destruct (h (ClusterAlertGroupLister_Get clusterName (Name (cag_ObjectMeta g))) w)
    as [[o [err|]] w1]; simpl in *.
  2: { do 3 eexists. split; [reflexivity|]. simpl.
       repeat split; try done; try by constructor. by apply Hro. }
  destruct (IsNotFound err) eqn:Hnf; simpl.
  2: { do 3 eexists. split; [reflexivity|]. unfold notFounds. simpl. rewrite Hnf.
       repeat split; try done; by constructor. }
  destruct (h (ClusterAlertGroups_Create (group_set_ClusterName clusterName g)) w1)
    as [[o2 [err2|]] w2]; simpl.
  2: { do 3 eexists. split; [reflexivity|]. unfold notFounds. simpl. rewrite Hnf.
       repeat split; try done. }
  destruct (IsAlreadyExists err2); simpl.
  all: do 3 eexists; (split; [reflexivity|]); unfold notFounds; simpl; rewrite Hnf;
       repeat split; done.
Qed.

(** The rule block, likewise. *)
Lemma ruleStep_run clusterName g rule w :
  let seeded :=
    rule_set_GroupName (GetGroupID clusterName (Name (cag_ObjectMeta g)))
      (rule_set_ClusterName clusterName rule) in
  exists w' t,
    run h (ruleStep clusterName g rule) w = (tt, w', t)
    /\ Seeding h clusterName [OClusterRule seeded]
         (reference_createIfAbsent clusterName (OClusterRule seeded)) w w' t.
Proof.
  unfold Seeding, ruleStep, reference_createIfAbsent, foundAt. simpl.
  pose proof (fun Hro : readOnlyListers h =>
    Hro (ClusterAlertRuleLister_Get clusterName (Name (car_ObjectMeta rule))) w eq_refl) as Hro.
  destruct (h (ClusterAlertRuleLister_Get clusterName (Name (car_ObjectMeta rule))) w)
    as [[o [err|]] w1]; simpl in *.
  2: { do 2 eexists. split; [reflexivity|]. simpl.
       repeat split; try done; try by constructor. by apply Hro. }
  destruct (IsNotFound err) eqn:Hnf; simpl.
  2: { do 2 eexists. split; [reflexivity|]. unfold notFounds. simpl. rewrite Hnf.
       repeat split; try done; by constructor. }
  match goal with |- context [h (ClusterAlertRules_Create ?r) w1] =>
    destruct (h (ClusterAlertRules_Create r) w1) as [[o2 [err2|]] w2]; simpl end.
  2: { do 2 eexists. split; [reflexivity|]. unfold notFounds. simpl. rewrite Hnf.
       repeat split; try done. }
  destruct (IsAlreadyExists err2); simpl.
  all: do 2 eexists; (split; [reflexivity|]); unfold notFounds; simpl; rewrite Hnf;
       repeat split; done.
Qed.

(** The inner loop, over the rules of one entry. *)
Lemma rules_run clusterName (e : entry) g (rs : list ClusterAlertRule) w :
  Name (cag_ObjectMeta g) = Name (cag_ObjectMeta (group e)) ->
  exists w' t,
    run h (forEach rs (ruleStep clusterName g)) w = (tt, w', t)
    /\ Seeding h clusterName
         (map (fun rule => OClusterRule (seededRule clusterName e rule)) rs)
         (forEach rs (fun rule =>
            reference_createIfAbsent clusterName
              (OClusterRule (seededRule clusterName e rule)))) w w' t.
Proof.
  intros Hname. revert rs w. apply forEach_run_ind.
  - intros w. apply Seeding_nil.
  - intros rule rs w w1 w2 t1 t2 Hstep Hrest.
    destruct (ruleStep_run clusterName g rule w) as (w1' & t1' & Hrun & Hseed).
    rewrite Hrun in Hstep. simplify_eq. rewrite Hname in Hseed.
    exact (Seeding_app _ [_] _ _ _ _ _ _ _ _ Hseed Hrest).
Qed.

(** The outer loop, over a table. *)
Lemma table_run clusterName (table : list entry) w :
  exists w' t,
    run h (forEach table (fun entry =>
             group ← groupStep clusterName (group entry);
             forEach (rules entry) (ruleStep clusterName group))) w = (tt, w', t)
    /\ Seeding h clusterName (seedsOf clusterName table)
         (forEach table (fun e =>
            reference_createIfAbsent clusterName
              (OClusterGroup (seededGroup clusterName e));;
            forEach (rules e) (fun rule =>
              reference_createIfAbsent clusterName
                (OClusterRule (seededRule clusterName e rule))))) w w' t.
Proof.
  revert table w. apply forEach_run_ind.
  - intros w. apply Seeding_nil.
  - intros e table w w1 w2 t1 t2 Hstep Hrest.
    rewrite run_bind in Hstep.
    destruct (groupStep_run clusterName (group e) w) as (g' & wg & tg & Hg & Hname & Hseedg).
    rewrite Hg in Hstep.
    destruct (rules_run clusterName e g' (rules e) wg Hname) as (wr & tr & Hr & Hseedr).
    rewrite Hr in Hstep. simplify_eq.
    pose proof (Seeding_app _ [_] _ _ _ _ _ _ _ _ Hseedg Hseedr) as Hentry.
    exact (Seeding_app _ _ _ _ _ _ _ _ _ _ Hentry Hrest).
Qed.

(** The whole routine on the static table. *)
Lemma initClusterPreCanAlerts_run clusterName w :
  exists w' t,
    run h (initClusterPreCanAlerts clusterName) w = (tt, w', t)
    /\ Seeding h clusterName (seeds clusterName) (reference_reconcile clusterName) w w' t.
Proof.
  rewrite initClusterPreCanAlerts_steps. apply table_run.
Qed.


(** The lister keys of the seeded objects, in table order. *)
Lemma seeds_keys clusterName :
  map (keyOf clusterName) (seeds clusterName) =
  [ (KClusterGroup, clusterName, "etcd-alert");
    (KClusterRule, clusterName, "no-leader");
    (KClusterRule, clusterName, "high-number-of-leader-changes");
    (KClusterRule, clusterName, "db-over-size");
    (KClusterRule, clusterName, "etcd-system-service");
    (KClusterGroup, clusterName, "kube-components-alert");
    (KClusterRule, clusterName, "scheduler-system-service");
    (KClusterRule, clusterName, "controllermanager-system-service");
    (KClusterGroup, clusterName, "node-alert");
    (KClusterRule, clusterName, "node-disk-running-full");
    (KClusterRule, clusterName, "high-memmory");
    (KClusterRule, clusterName, "high-cpu-load");
    (KClusterGroup, clusterName, "event-alert");
    (KClusterRule, clusterName, "deployment-event-alert") ].
Proof. reflexivity. Qed.

(** C3: for every cluster name and every client, [initClusterPreCanAlerts]
    works on exactly the four groups etcd-alert, kube-components-alert,
    node-alert and event-alert and on the rules the table lists with each:
    it looks up these fourteen objects, in table order, under the cluster's
    name; every object it asks the client to create is one of the table's,
    with the cluster name and group ID filled in; and the objects it
    creates are, in order, those the lister reported not found. *)
Theorem initClusterPreCanAlerts_seeds_table clusterName (w : W) :
  let t := snd (run h (initClusterPreCanAlerts clusterName) w) in
  map (fun e => Name (cag_ObjectMeta (group e))) entries
    = ["etcd-alert"; "kube-components-alert"; "node-alert"; "event-alert"]
  /\ lookups t =
     [ (KClusterGroup, clusterName, "etcd-alert");
       (KClusterRule, clusterName, "no-leader");
       (KClusterRule, clusterName, "high-number-of-leader-changes");
       (KClusterRule, clusterName, "db-over-size");
       (KClusterRule, clusterName, "etcd-system-service");
       (KClusterGroup, clusterName, "kube-components-alert");
       (KClusterRule, clusterName, "scheduler-system-service");
       (KClusterRule, clusterName, "controllermanager-system-service");
       (KClusterGroup, clusterName, "node-alert");
       (KClusterRule, clusterName, "node-disk-running-full");
       (KClusterRule, clusterName, "high-memmory");
       (KClusterRule, clusterName, "high-cpu-load");
       (KClusterGroup, clusterName, "event-alert");
       (KClusterRule, clusterName, "deployment-event-alert") ]
  /\ NoDup (map (keyOf clusterName) (seeds clusterName))
  /\ sublist (creates t) (seeds clusterName)
  /\ map (keyOf clusterName) (creates t) = notFounds t.
Proof.
  intros t. subst t.
  destruct (initClusterPreCanAlerts_run clusterName w)
    as (w' & t & -> & Hlook & Hsub & Hnf & _).
  simpl snd. rewrite <- seeds_keys. auto using seeds_keys_NoDup.
Qed.

(** C4: on a client whose listers leave its state alone and find every
    precanned group and rule of the cluster, [initClusterPreCanAlerts]
    asks for no creation and leaves the state as it was, so that running
    it twice ends in the state that running it once ends in. *)
Theorem initClusterPreCanAlerts_idempotent clusterName (w : W) :
  readOnlyListers h ->
  forallb (foundAt h w) (map (keyOf clusterName) (seeds clusterName)) = true ->
  let '(_, w', t) := run h (initClusterPreCanAlerts clusterName) w in
  creates t = []
  /\ w' = w
  /\ snd (fst (run h (initClusterPreCanAlerts clusterName;;
                      initClusterPreCanAlerts clusterName) w)) = w'.
Proof.
  intros Hro Hall.
  destruct (initClusterPreCanAlerts_run clusterName w)
    as (w' & t & Hrun & _ & _ & _ & _ & Hfound).
  destruct (Hfound Hro Hall) as (-> & Hc & _).
  rewrite run_bind, !Hrun. auto.
Qed.

(** C5: against every client, [initClusterPreCanAlerts] and the reference
    reconciliation return the same result, make the same client calls
    with the same replies in the same order, and leave the client in the
    same state.  The warnings the routine logs are no client calls and
    are left out of the comparison. *)
Theorem initClusterPreCanAlerts_refines_reference clusterName (w : W) :
  let '(u, w', t) := run h (initClusterPreCanAlerts clusterName) w in
  run h (reference_reconcile clusterName) w = (u, w', calls t).
Proof.
  destruct (initClusterPreCanAlerts_run clusterName w)
    as (w' & t & -> & _ & _ & _ & Href & _).
  exact Href.
Qed.


(** C9: for every project and every client, [ProjectLifecycle.Create]
    asks for three creations, in this order: the project alert group
    projectalert-workload-alert; the rule less-than-half-workload-available,
    critical, on a workload with available percentage 50; and the rule
    memory-close-to-resource-limited, warning, on the metric of memory
    use against the memory limit with threshold 1.  All three are in the
    namespace named after the project, and both rules name the group by
    its ID. *)
Theorem ProjectLifecycle_Create_seeds (l : ProjectLifecycle) (obj : Project) (w : W) :
  let t := snd (run h (ProjectLifecycle_Create l obj) w) in
  let projectName := Name (project_ObjectMeta obj) in
  exists g r1 r2 workload metric,
    creates t = [OProjectGroup g; OProjectRule r1; OProjectRule r2]
    /\ pag_ObjectMeta g =
       {| Name := "projectalert-workload-alert"; Namespace := projectName |}
    /\ par_ObjectMeta r1 =
       {| Name := "less-than-half-workload-available"; Namespace := projectName |}
    /\ rule_Severity (pars_CommonRuleField (par_Spec r1)) = SeverityCritical
    /\ pars_WorkloadRule (par_Spec r1) = Some workload
    /\ AvailablePercentage workload = 50%Z
    /\ pars_GroupName (par_Spec r1) = GetGroupID projectName (Name (pag_ObjectMeta g))
    /\ par_ObjectMeta r2 =
       {| Name := "memory-close-to-resource-limited"; Namespace := projectName |}
    /\ rule_Severity (pars_CommonRuleField (par_Spec r2)) = SeverityWarning
    /\ pars_MetricRule (par_Spec r2) = Some metric
    /\ Expression metric =
       "sum(container_memory_working_set_bytes) by (pod_name, container_name) / sum(label_join(label_join(kube_pod_container_resource_limits_memory_bytes,"
       +:+ dquote +:+ "pod_name" +:+ dquote +:+ ", " +:+ dquote +:+ dquote
       +:+ ", " +:+ dquote +:+ "pod" +:+ dquote +:+ "),"
       +:+ dquote +:+ "container_name" +:+ dquote +:+ ", " +:+ dquote +:+ dquote
       +:+ ", " +:+ dquote +:+ "container" +:+ dquote
       +:+ ")) by (pod_name, container_name)"
    /\ Comparison metric = ComparisonGreaterThan
    /\ ThresholdValue metric = 1%Z
    /\ pars_GroupName (par_Spec r2) = GetGroupID projectName (Name (pag_ObjectMeta g)).
Proof.
  intros t projectName. subst t. unfold ProjectLifecycle_Create. simpl.
  repeat match goal with
  | |- context [h ?c ?w0] =>
    destruct (h c w0) as [[? [?|]] ?]; simpl
  | |- context [IsAlreadyExists ?e] => destruct (IsAlreadyExists e); simpl
  end;
  do 5 eexists; repeat split.
Qed.

(** C10: whatever the client replies, [ProjectLifecycle.Create] returns
    the project it was given and a nil error; [Updated] and [Remove] do so
    without calling the client at all.  [Create] makes its three creation
    calls in every case and logs one warning for each that failed with an
    error other than already-exists. *)
Theorem ProjectLifecycle_returns_obj (l : ProjectLifecycle) (obj : Project) (w : W) :
  fst (fst (run h (ProjectLifecycle_Create l obj) w)) = (Some obj, None)
  /\ run h (ProjectLifecycle_Updated l obj) w = ((Some obj, None), w, [])
  /\ run h (ProjectLifecycle_Remove l obj) w = ((Some obj, None), w, [])
  /\ (let t := snd (run h (ProjectLifecycle_Create l obj) w) in
      length (creates t) = 3
      /\ length (warnings t) = length (failedCreates t)).
Proof.
  unfold ProjectLifecycle_Create, failedCreates, warnings, creates. simpl.
  repeat match goal with
  | |- context [h ?c ?w0] =>
    destruct (h c w0) as [[? [?|]] ?]; simpl
  | |- context [IsAlreadyExists ?e] => destruct (IsAlreadyExists e) eqn:?; simpl
  end;
  repeat split; congruence.
Qed.


End Running.
End Properties.

(** ** The sample platform at work *)

Lemma memClient_readOnly : @readOnlyListers sampleImports Store memClient.
Proof. intros [] w Hc; try discriminate; reflexivity. Qed.

(** Seeding an empty cluster creates all fourteen objects, without a
    warning. *)
Example seeding_empty_store :
  let t := snd (@run sampleImports _ _ memClient
                  (@initClusterPreCanAlerts sampleImports "c-1") (emptyStore [linuxNode])) in
  map nameOf (@creates sampleImports t)
  = [ "etcd-alert"; "no-leader"; "high-number-of-leader-changes"; "db-over-size";
      "etcd-system-service"; "kube-components-alert"; "scheduler-system-service";
      "controllermanager-system-service"; "node-alert"; "node-disk-running-full";
      "high-memmory"; "high-cpu-load"; "event-alert"; "deployment-event-alert" ]
  /\ @warnings sampleImports t = [].
Proof. cbv zeta. split_and!; vm_compute; reflexivity. Qed.

(** On a client where every call fails, nothing is created and each of
    the fourteen failed lookups is logged. *)
Example seeding_failing_client :
  let t := snd (@run sampleImports _ _ failingClient
                  (@initClusterPreCanAlerts sampleImports "c-1") tt) in
  @creates sampleImports t = [] /\ length (@warnings sampleImports t) = 14.
Proof. cbv zeta. split_and!; vm_compute; reflexivity. Qed.

Lemma initClusterPreCanAlerts_idempotent_witness :
  @creates sampleImports
    (snd (@run sampleImports _ _ memClient
            (@initClusterPreCanAlerts sampleImports "c-1") seededStore)) = []
  /\ snd (fst (@run sampleImports _ _ memClient
                 (@initClusterPreCanAlerts sampleImports "c-1") seededStore)) = seededStore.
Proof.
  pose proof (@initClusterPreCanAlerts_idempotent sampleImports Store memClient
                "c-1" seededStore memClient_readOnly
                ltac:(vm_compute; reflexivity)) as Hw.
  destruct (@run sampleImports _ _ memClient
              (@initClusterPreCanAlerts sampleImports "c-1") seededStore)
    as [[u w'] t].
  destruct Hw as (Hcreates & Hstate & _). split; [exact Hcreates|exact Hstate].
Defined.

(** A project's built-in alerts, when every creation fails: the project
    comes back with a nil error and three warnings are logged. *)
Example project_create_failing_client :
  let r := @run sampleImports _ _ failingClient
             (@ProjectLifecycle_Create sampleImports
                {| pl_clusterName := "c-1" |} sampleProject) tt in
  fst (fst r) = (Some sampleProject, None)
  /\ length (@creates sampleImports (snd r)) = 3
  /\ length (@warnings sampleImports (snd r)) = 3.
Proof. cbv zeta. split_and!; vm_compute; reflexivity. Qed.

(** A cluster with a Windows node gets the Windows rule, once. *)
Example sync_windows_node :
  let l := {| wns_clusterName := "c-1" |} in
  let r1 := @run sampleImports _ _ memClient
              (@windowsNodeSyner_Sync sampleImports l "worker-2" windowsNode)
              (emptyStore [linuxNode; windowsNode]) in
  let r2 := @run sampleImports _ _ memClient
              (@windowsNodeSyner_Sync sampleImports l "worker-2" windowsNode)
              (snd (fst r1)) in
  map nameOf (@creates sampleImports (snd r1))
    = ["windows-node-disk-running-full"]
  /\ fst (fst r1) = (Some windowsNode, None)
  /\ @creates sampleImports (snd r2) = []
  /\ fst (fst r2) = (Some windowsNode, None).
Proof. cbv zeta. split_and!; vm_compute; reflexivity. Qed.

(** A cluster without one gets nothing. *)
Example sync_linux_only :
  let l := {| wns_clusterName := "c-1" |} in
  let r := @run sampleImports _ _ memClient
             (@windowsNodeSyner_Sync sampleImports l "worker-1" linuxNode)
             (emptyStore [linuxNode]) in
  @creates sampleImports (snd r) = []
  /\ fst (fst r) = (Some linuxNode, None)
  /\ snd (fst r) = emptyStore [linuxNode].
Proof. cbv zeta. split_and!; vm_compute; reflexivity. Qed.

End AlertProofs.

(* ===================================================================== *)
(** * More properties of the template store *)
Module CatalogExtras.
Import Catalog CatalogProofs.

Section Properties.
Context `{Imports}.

(** [strconv.FormatInt] never returns the empty string. *)
Lemma pretty_N_go_nonempty (x : N) (s : string) : s <> "" -> pretty_N_go x s <> "".
Proof.
  revert s. induction (N.lt_wf_0 x) as [x _ IH]; intros s Hs.
  assert (x = 0 \/ 0 < x)%N as [->|Hx] by lia.
  - by rewrite pretty_N_go_0.
  - rewrite pretty_N_go_step by done. apply IH; [by apply N.div_lt|done].
Qed.

Lemma FormatInt_nonempty (v : Z) : FormatInt v <> "".
Proof.
  unfold FormatInt, pretty, pretty_Z. destruct v as [|p|p]; [done| |done].
  unfold pretty, pretty_positive, pretty, pretty_N.
  rewrite decide_False by done.
  rewrite pretty_N_go_step by lia. by apply pretty_N_go_nonempty.
Qed.

(** X3: a version whose [revision] entry is an [int64] gets the ID made of
    the template's id and that revision in decimal, whatever the revision
    is, zero and negative numbers included: the test for an empty revision
    string never discards one.  A version whose [revision] entry is
    missing or of any other type gets the ID made of the template's id and
    its version string. *)
Theorem versionIDOf_revision (resource version : gmap string value)
    (versionString : string) :
  (forall n, index version "revision" = VInt64 n ->
     versionIDOf resource version versionString
     = fmt_v (index resource "id") +:+ "-" +:+ FormatInt n)
  /\ ((forall n, index version "revision" <> VInt64 n) ->
      versionIDOf resource version versionString
      = fmt_v (index resource "id") +:+ "-" +:+ versionString).
Proof.
  unfold versionIDOf, revisionOf, Sprintf_v_v. split.
  - intros n ->. simpl.
    case_decide as Hn; [done|]. by destruct (FormatInt_nonempty n).
  - intros Hno. destruct (index version "revision"); try done.
    by destruct (Hno n).
Qed.



(** X5: whenever the [Transformer] returns, its error is nil, the payload
    it returns holds a map under [versionLinks], and every other entry of
    the payload is what it was. *)
Theorem Transformer_frame ts ctx schema (data data' : gmap string value) opt err :
  Transformer ts ctx schema data opt = Some (data', err) ->
  err = None
  /\ (exists links : gmap string value,
        data' !! CatalogTemplateFieldVersionLinks = Some (VMap links))
  /\ (forall k, k <> CatalogTemplateFieldVersionLinks -> data' !! k = data !! k).
Proof.
  unfold Transformer. destruct (extractVersionLinks ts ctx data) as [links|]; [|done].
  intros [= <- <-]. split; [done|]. split.
  - exists links. apply lookup_insert_eq.
  - intros k Hk. by apply lookup_insert_ne.
Qed.

Lemma linkOf_versionString ctx resource version k :
  versionStringOf version = Some k ->
  linkOf ctx resource version =
  Some (VString (URLBuilder_ResourceLinkByID ctx
                   (Schemas_Schema ctx managementschema_Version TemplateVersionType)
                   (match version with
                    | VMap vm => versionIDOf resource vm k
                    | _ => k
                    end))).
Proof.
  destruct version as [| | | | | |vm]; try discriminate. simpl.
  destruct (index vm "version"); try discriminate. by intros [= ->].
Qed.

Lemma rangeVersions_last t ctx resource (versionMap : list value) :
  let schema := Schemas_Schema ctx managementschema_Version TemplateVersionType in
  forallb wellFormedVersion versionMap = true ->
  forall r : gmap string value,
  exists r' : gmap string value,
    rangeVersions t ctx schema resource r versionMap = Some r'
    /\ forall k, r' !! k =
         match last (writersOf t ctx k versionMap) with
         | Some v => linkOf ctx resource v
         | None => r !! k
         end.
Proof.
  intros schema. induction versionMap as [|v l IH]; intros Hwf r.
  - exists r. split; [reflexivity|done].
  - simpl in Hwf. apply andb_prop in Hwf as [Hv Hl].
    destruct (extractVersionLink_wellFormed t ctx schema resource r v Hv)
      as (k0 & Hk0 & Hstep).
    simpl. rewrite Hstep. clear Hstep.
    match goal with |- context [rangeVersions _ _ _ _ ?r1 l] =>
      destruct (IH Hl r1) as (r' & Hrun & Hlast) end.
    exists r'. split; [exact Hrun|]. intros k. rewrite Hlast. clear Hlast Hrun.
    unfold writersOf. rewrite filter_cons.
    destruct (decide (writes t ctx k v)) as [[Hvs Hc]|Hno].
    + rewrite last_cons. destruct (last (filter (writes t ctx k) l)); [done|].
      rewrite Hc. rewrite Hk0 in Hvs. injection Hvs as ->.
      rewrite lookup_insert_eq. symmetry. by apply linkOf_versionString.
    + destruct (last (filter (writes t ctx k) l)); [done|].
      destruct (compatible t ctx v) eqn:Hc; [|done].
      apply lookup_insert_ne. intros ->. apply Hno. by split.
Qed.

(** X4: on a well-formed payload the link under a key is the link of the
    last listed version that has this version string and is compatible:
    a later version overwrites the link of an earlier one with the same
    version string, and a key no compatible version has is absent. *)
Theorem extractVersionLinks_last_wins ts ctx (data : gmap string value) :
  forallb wellFormedVersion (versionsOf data) = true ->
  exists links : gmap string value,
    extractVersionLinks ts ctx data = Some links
    /\ forall k, links !! k
         = last (writersOf ts ctx k (versionsOf data)) ≫= linkOf ctx data.
Proof.
  intros Hwf. unfold extractVersionLinks, versionsOf in *.
  destruct (index data CatalogTemplateFieldVersions) as [| | | | |l|];
    try (exists ∅; split; [reflexivity|]; intros k; by rewrite lookup_empty).
  destruct (rangeVersions_last ts ctx data l Hwf ∅) as (r' & Hrun & Hlast).
  exists r'. split; [exact Hrun|]. intros k. rewrite Hlast.
  destruct (last (writersOf ts ctx k l)); [done|]. by rewrite lookup_empty.
Qed.

(** X6: when the server version is no release version, every version of a
    well-formed payload has a link under its version string, whatever the
    lister and the validation say. *)
Theorem extractVersionLinks_not_release ts ctx (data : gmap string value) :
  ReleaseServerVersion ServerVersion_Get = false ->
  forallb wellFormedVersion (versionsOf data) = true ->
  exists links : gmap string value,
    extractVersionLinks ts ctx data = Some links
    /\ forall v, v ∈ versionsOf data ->
         exists k, versionStringOf v = Some k /\ links !! k <> None.
Proof.
  intros Hrel Hwf. unfold extractVersionLinks, versionsOf in *.
  destruct (index data CatalogTemplateFieldVersions) as [| | | | |l|];
    try (exists ∅; split; [reflexivity|]; intros v Hin; by inversion Hin).
  destruct (rangeVersions_spec ts ctx data l Hwf ∅) as (r' & Hrun & _ & _ & Hall).
  exists r'. split; [exact Hrun|]. intros v Hin.
  rewrite forallb_forall in Hwf.
  assert (wellFormedVersion v = true) as Hv by (apply Hwf; by apply list_elem_of_In).
  destruct v as [| | | | | |vm]; try discriminate. simpl in Hv.
  destruct (index vm "version") as [| | | |k| |] eqn:Hk; try discriminate.
  destruct (index vm "externalId") as [| | | |e| |] eqn:He; try discriminate.
  exists k. split; [simpl; by rewrite Hk|].
  assert (is_Some (r' !! k)) as [u Hu]; [|by rewrite Hu].
  apply (Hall (VMap vm)); [done|simpl; by rewrite Hk|].
  simpl. rewrite He. unfold templateVersionForRancherVersion. by rewrite Hrel.
Qed.

(** The loop reads the payload only through its [id]. *)
Lemma versionIDOf_ext (r1 r2 version : gmap string value) versionString :
  index r1 "id" = index r2 "id" ->
  versionIDOf r1 version versionString = versionIDOf r2 version versionString.
Proof. unfold versionIDOf. by intros ->. Qed.

Lemma rangeVersions_ext t ctx schema (r1 r2 : gmap string value)
    (versionMap : list value) :
  index r1 "id" = index r2 "id" ->
  forall r : gmap string value,
    rangeVersions t ctx schema r1 r versionMap
    = rangeVersions t ctx schema r2 r versionMap.
Proof.
  intros Hid. induction versionMap as [|v l IH]; intros r; [done|]. simpl.
  assert (extractVersionLink t ctx schema r1 r v
          = extractVersionLink t ctx schema r2 r v) as ->.
  { unfold extractVersionLink. destruct v; try done.
    destruct (index m "version"); try done.
    by rewrite (versionIDOf_ext r1 r2). }
  destruct (extractVersionLink t ctx schema r2 r v); [apply IH|done].
Qed.

Lemma linkOf_ext ctx (r1 r2 : gmap string value) version :
  index r1 "id" = index r2 "id" -> linkOf ctx r1 version = linkOf ctx r2 version.
Proof.
  intros Hid. unfold linkOf. destruct version; try done.
  destruct (index m "version"); try done.
  by rewrite (versionIDOf_ext r1 r2).
Qed.

(** X7: where the [versionLinks] field is neither the [versions] field nor
    the [id] field, transforming a transformed payload returns it
    unchanged: the links are computed from the versions and the id alone
    and an existing [versionLinks] entry is overwritten. *)
Theorem Transformer_idempotent ts ctx schema (data data' : gmap string value) opt err :
  CatalogTemplateFieldVersionLinks <> CatalogTemplateFieldVersions ->
  CatalogTemplateFieldVersionLinks <> "id" ->
  Transformer ts ctx schema data opt = Some (data', err) ->
  Transformer ts ctx schema data' opt = Some (data', err).
Proof.
  intros Hversions Hid. unfold Transformer.
  destruct (extractVersionLinks ts ctx data) as [links|] eqn:Hlinks; [|done].
  intros [= <- <-].
  assert (extractVersionLinks ts ctx
            (<[CatalogTemplateFieldVersionLinks := VMap links]> data) = Some links)
    as ->.
  { rewrite <- Hlinks. unfold extractVersionLinks, index.
    rewrite lookup_insert_ne by done.
    destruct (default VNil (data !! CatalogTemplateFieldVersions)); try done.
    apply rangeVersions_ext. unfold index. by rewrite lookup_insert_ne. }
  by rewrite insert_insert_eq.
Qed.

(** With distinct version strings at most one version writes under a
    key. *)
Lemma writersOf_NoDup t ctx k (versions : list value) :
  NoDup (versionStringOf <$> versions) ->
  length (writersOf t ctx k versions) <= 1.
Proof.
  unfold writersOf. induction versions as [|v l IH]; [simpl; lia|].
  rewrite fmap_cons, NoDup_cons. intros [Hv Hl]. rewrite filter_cons.
  destruct (decide (writes t ctx k v)) as [[Hk _]|_]; [|by apply IH].
  assert (filter (writes t ctx k) l = []) as ->; [|simpl; lia].
  destruct (filter (writes t ctx k) l) as [|y ys] eqn:Hf; [done|].
  assert (y ∈ filter (writes t ctx k) l) as Hy by (rewrite Hf; left).
  apply list_elem_of_filter in Hy as [[Hyk _] Hy]. destruct Hv.
  rewrite Hk, <- Hyk. by apply list_elem_of_fmap_2.
Qed.

(** X8: two well-formed payloads with the same id that list the same
    versions in a different order get the same links, provided no two
    versions share a version string. *)
Theorem extractVersionLinks_order ts ctx (r1 r2 : gmap string value) :
  index r1 "id" = index r2 "id" ->
  versionsOf r1 ≡ₚ versionsOf r2 ->
  NoDup (versionStringOf <$> versionsOf r1) ->
  forallb wellFormedVersion (versionsOf r1) = true ->
  exists links : gmap string value,
    extractVersionLinks ts ctx r1 = Some links
    /\ extractVersionLinks ts ctx r2 = Some links.
Proof.
  intros Hid Hperm Hnodup Hwf1.
  assert (forallb wellFormedVersion (versionsOf r2) = true) as Hwf2.
  { rewrite forallb_forall in *. intros v Hv. apply Hwf1.
    revert Hv. apply Permutation_in. by symmetry. }
  assert (forall r : gmap string value,
            forallb wellFormedVersion (versionsOf r) = true ->
            exists links : gmap string value,
              extractVersionLinks ts ctx r = Some links
              /\ forall k, links !! k =
                   match last (writersOf ts ctx k (versionsOf r)) with
                   | Some v => linkOf ctx r v
                   | None => None
                   end) as Hlast.
  { intros r Hwf. unfold extractVersionLinks, versionsOf in *.
    destruct (index r CatalogTemplateFieldVersions) as [| | | | |l|];
      try (exists ∅; split; [reflexivity|]; intros k; by rewrite lookup_empty).
    destruct (rangeVersions_last ts ctx r l Hwf ∅) as (r' & Hrun & Hr').
    exists r'. split; [exact Hrun|]. intros k. rewrite Hr'.
    destruct (last (writersOf ts ctx k l)); [done|]. by rewrite lookup_empty. }
  destruct (Hlast r1 Hwf1) as (links1 & Hrun1 & Hlinks1).
  destruct (Hlast r2 Hwf2) as (links2 & Hrun2 & Hlinks2).
  exists links1. split; [exact Hrun1|]. rewrite Hrun2. f_equal.
  apply map_eq. intros k. rewrite Hlinks1, Hlinks2.
  assert (writersOf ts ctx k (versionsOf r1) = writersOf ts ctx k (versionsOf r2))
    as ->.
  { pose proof (writersOf_NoDup ts ctx k _ Hnodup) as Hlen.
    assert (writersOf ts ctx k (versionsOf r1) ≡ₚ writersOf ts ctx k (versionsOf r2))
      as Hp by (unfold writersOf; by rewrite Hperm).
    destruct (writersOf ts ctx k (versionsOf r1)) as [|a [|b l]]; simpl in Hlen.
    - by apply Permutation_nil_l in Hp.
    - by apply Permutation_singleton_l in Hp.
    - lia. }
  destruct (last (writersOf ts ctx k (versionsOf r2))); [|done].
  symmetry. by apply linkOf_ext.
Qed.

End Properties.

(** ** The extras on the sample payloads *)


Lemma Transformer_frame_witness :
  (None : option string) = None
  /\ (exists links : gmap string value,
        sampleResult !! "versionLinks" = Some (VMap links))
  /\ (forall k, k <> "versionLinks" -> sampleResult !! k = samplePayload !! k).
Proof.
  apply (@Transformer_frame sampleImports sampleStore sampleContext None
           samplePayload sampleResult None None).
  vm_compute. reflexivity.
Defined.

Lemma extractVersionLinks_last_wins_witness :
  exists links : gmap string value,
    @extractVersionLinks sampleImports sampleStore sampleContext duplicatePayload
      = Some links
    /\ links !! "1.0.0"
       = Some (VString "/v3/templateVersions/cattle-global-data:library-wordpress-2").
Proof.
  destruct (@extractVersionLinks_last_wins sampleImports sampleStore sampleContext
              duplicatePayload eq_refl) as (links & Hrun & Hlast).
  exists links. split; [exact Hrun|]. rewrite Hlast. vm_compute. reflexivity.
Defined.

Lemma extractVersionLinks_not_release_witness :
  exists links : gmap string value,
    @extractVersionLinks devImports devStore devContext samplePayload = Some links
    /\ links !! "1.0.0" <> None.
Proof.
  destruct (@extractVersionLinks_not_release devImports devStore devContext
              samplePayload eq_refl eq_refl) as (links & Hrun & Hall).
  exists links. split; [exact Hrun|].
  destruct (Hall (sampleVersion "1.0.0" "old" None)) as (k & Hk & Hlink).
  - apply list_elem_of_In. vm_compute. auto.
  - vm_compute in Hk. injection Hk as <-. exact Hlink.
Defined.

Lemma Transformer_idempotent_witness :
  @Transformer sampleImports sampleStore sampleContext None sampleResult None
  = Some (sampleResult, None).
Proof.
  apply (@Transformer_idempotent sampleImports sampleStore sampleContext None
           samplePayload sampleResult None None).
  - discriminate.
  - discriminate.
  - vm_compute. reflexivity.
Defined.

Lemma extractVersionLinks_order_witness :
  exists links : gmap string value,
    @extractVersionLinks sampleImports sampleStore sampleContext samplePayload
      = Some links
    /\ @extractVersionLinks sampleImports sampleStore sampleContext
         samplePayloadReordered = Some links.
Proof.
  apply (@extractVersionLinks_order sampleImports sampleStore sampleContext
           samplePayload samplePayloadReordered).
  - vm_compute. reflexivity.
  - change (@versionsOf sampleImports samplePayload)
      with [sampleVersion "1.0.0" "old" None;
            sampleVersion "2.0.0" "new" (Some 7%Z);
            sampleVersion "3.0.0" "unknown" None].
    change (@versionsOf sampleImports samplePayloadReordered)
      with [sampleVersion "3.0.0" "unknown" None;
            sampleVersion "1.0.0" "old" None;
            sampleVersion "2.0.0" "new" (Some 7%Z)].
    symmetry.
    apply (Permutation_cons_append
             [sampleVersion "1.0.0" "old" None; sampleVersion "2.0.0" "new" (Some 7%Z)]).
  - vm_compute.
    repeat (apply NoDup_cons; split;
            [intros Hin;
             repeat (apply elem_of_cons in Hin as [Hin|Hin]; [discriminate|]);
             by apply elem_of_nil in Hin|]).
    apply NoDup_nil_2.
  - vm_compute. reflexivity.
Defined.

End CatalogExtras.

(* ===================================================================== *)
(** * More properties of the alert seeding *)
Module AlertExtras.
Import Alert AlertProofs.

Section Properties.
Context `{Imports}.

(** Every object of the table is well seeded. *)
Lemma seeds_wellSeeded clusterName : Forall (wellSeeded clusterName) (seeds clusterName).
Proof.
  unfold seeds, seedsOf. simpl.
  repeat (apply Forall_cons; split;
          [simpl; repeat split; try reflexivity;
           unfold groupNames; simpl; by repeat constructor|]).
  apply Forall_nil_2.
Qed.

(** A sublist as long as the list is the list. *)
Lemma sublist_full {A} (l1 l2 : list A) :
  l1 `sublist_of` l2 -> length l2 <= length l1 -> l1 = l2.
Proof.
  induction 1 as [|x l1 l2 Hsub IH|x l1 l2 Hsub IH]; simpl; intros Hlen.
  - done.
  - f_equal. apply IH. lia.
  - apply sublist_length in Hsub. lia.
Qed.

Section Running.
Context {W : Type} (h : Handler W).

(** A property of event lists that holds of the empty list, of the run of
    either block of the loop body, and of a concatenation when it holds of
    both parts, holds of the run of [initClusterPreCanAlerts]. *)
Lemma initClusterPreCanAlerts_events (Q : list Event -> Prop) clusterName :
  Q [] ->
  (forall t1 t2, Q t1 -> Q t2 -> Q (t1 ++ t2)) ->
  (forall g w, Q (snd (run h (groupStep clusterName g) w))) ->
  (forall g rule w, Q (snd (run h (ruleStep clusterName g rule) w))) ->
  forall w, Q (snd (run h (initClusterPreCanAlerts clusterName) w)).
Proof.
  intros Hnil Happ Hgroup Hrule w. rewrite initClusterPreCanAlerts_steps.
  destruct (forEach_run_ind h
              (fun entry =>
                 group ← groupStep clusterName (group entry);
                 forEach (rules entry) (ruleStep clusterName group))
              (fun _ _ _ t => Q t)) with (l := entries) (w := w)
    as (w' & t & -> & HQ); [done| |done].
  clear w. intros e l w w1 w2 t1 t2 Hstep HQ. apply Happ; [|done].
  rewrite run_bind in Hstep.
  pose proof (Hgroup (group e) w) as Hg.
  destruct (run h (groupStep clusterName (group e)) w) as [[g' wg] tg].
  destruct (forEach_run_ind h (ruleStep clusterName g') (fun _ _ _ t => Q t))
    with (l := rules e) (w := wg) as (wr & tr & Hr & HQr); [done| |].
  { intros rule rs w0 w3 w4 t3 t4 Hrun HQ4. apply Happ; [|done].
    pose proof (Hrule g' rule w0) as Hr. by rewrite Hrun in Hr. }
  rewrite Hr in Hstep. simplify_eq. by apply Happ.
Qed.

(** X9: against every client, [initClusterPreCanAlerts] logs exactly one
    warning for each lookup that failed with an error other than
    not-found and for each creation that failed with an error other than
    already-exists, and no other warning: a not-found lookup and an
    already-exists creation are silent. *)
Theorem initClusterPreCanAlerts_logs_failures clusterName (w : W) :
  let t := snd (run h (initClusterPreCanAlerts clusterName) w) in
  length (warnings t) = length (failedLookups t) + length (failedCreates t).
Proof.
  apply (initClusterPreCanAlerts_events
           (fun t => length (warnings t)
                     = length (failedLookups t) + length (failedCreates t))).
  - done.
  - intros t1 t2 H1 H2. unfold warnings, failedLookups, failedCreates in *.
    rewrite !List.filter_app, !length_app. lia.
  - intros g w0. unfold groupStep, warnings, failedLookups, failedCreates. simpl.
    repeat match goal with
    | |- context [h ?c ?w1] => destruct (h c w1) as [[? [?|]] ?]; simpl
    | |- context [IsNotFound ?e] => destruct (IsNotFound e) eqn:?; simpl
    | |- context [IsAlreadyExists ?e] => destruct (IsAlreadyExists e) eqn:?; simpl
    end; congruence.
  - intros g rule w0. unfold ruleStep, warnings, failedLookups, failedCreates. simpl.
    repeat match goal with
    | |- context [h ?c ?w1] => destruct (h c w1) as [[? [?|]] ?]; simpl
    | |- context [IsNotFound ?e] => destruct (IsNotFound e) eqn:?; simpl
    | |- context [IsAlreadyExists ?e] => destruct (IsAlreadyExists e) eqn:?; simpl
    end; congruence.
Qed.

(** X10: when the listers report every looked-up object not found,
    [initClusterPreCanAlerts] asks for the creation of all fourteen
    objects of the table, in table order, whether or not creations
    fail. *)
Theorem initClusterPreCanAlerts_fresh_cluster clusterName (w : W) :
  let t := snd (run h (initClusterPreCanAlerts clusterName) w) in
  notFounds t = lookups t ->
  creates t = seeds clusterName.
Proof.
  intros t. subst t.
  destruct (initClusterPreCanAlerts_run h clusterName w)
    as (w' & t & -> & Hlook & Hsub & Hnf & _).
  simpl snd. intros Hall. apply sublist_full; [done|].
  rewrite <- (length_map (keyOf clusterName) (creates t)), Hnf, Hall, Hlook.
  by rewrite length_map.
Qed.

(** X11: against every client, every object [initClusterPreCanAlerts]
    asks to create is active and carries the cluster's name; a created
    group has a name of the table; a created rule has exactly one rule
    kind set and names, by its ID in the same cluster, a group of the
    table. *)
Theorem initClusterPreCanAlerts_creates_wellSeeded clusterName (w : W) :
  let t := snd (run h (initClusterPreCanAlerts clusterName) w) in
  Forall (wellSeeded clusterName) (creates t).
Proof.
  intros t. subst t.
  destruct (initClusterPreCanAlerts_run h clusterName w)
    as (w' & t & -> & _ & Hsub & _).
  simpl snd. apply Forall_forall. intros o Ho.
  pose proof (seeds_wellSeeded clusterName) as Hseeds.
  rewrite Forall_forall in Hseeds. apply Hseeds. by eapply elem_of_sublist.
Qed.







(** X13: [windowsNodeSyner.Sync] stops at the first failed call and returns
    its error wrapped: a failed call, if any, is the last call of the run
    (any error of the node lister, a rule lookup error other than
    not-found, a creation error other than already-exists); without one
    the error is nil.  The returned object is nil exactly when the node
    lister failed, and the input object otherwise. *)
Theorem windowsNodeSyner_Sync_errors
    (l : windowsNodeSyner) (key : string) (obj : Node) (w : W) :
  let '(res, _, t) := run h (windowsNodeSyner_Sync l key obj) w in
  fst res = (if existsb listFailed t then None else Some obj)
  /\ match last t ≫= failure with
     | Some e => exists format args, snd res = Some (Wrapf e format args)
     | None => snd res = None
     end
  /\ omap failure t = option_list (last t ≫= failure).
Proof.
  unfold windowsNodeSyner_Sync, initClusterWindowsAlert. simpl.
  destruct (h (NodeLister_List NamespaceAll windowNodeLabel) w)
    as [[nodes [lerr|]] w1]; simpl.
  { split; [done|]. split; [by do 2 eexists|done]. }
  destruct nodes as [|node nodes]; simpl; [done|].
  destruct (h (ClusterAlertRuleLister_Get (wns_clusterName l)
                 "windows-node-disk-running-full") w1)
    as [[existing gerr] w2]; simpl.
  destruct gerr as [gerr|]; [destruct (IsNotFound gerr) eqn:Hnf; simpl|];
    destruct existing as [existing|]; simpl;
    repeat match goal with
    | |- context [h ?c ?w0] => destruct (h c w0) as [[? [?|]] ?]; simpl
    | |- context [IsAlreadyExists ?e] => destruct (IsAlreadyExists e) eqn:?; simpl
    end;
    rewrite ?Hnf; simpl;
    repeat match goal with Hx : IsAlreadyExists _ = _ |- _ => rewrite Hx; clear Hx end;
    simpl; (split; [done|]); (split; [|done]);
    first [done | by do 2 eexists].
Qed.






End Running.
End Properties.

(** ** The extras on the sample platform *)





Lemma initClusterPreCanAlerts_fresh_cluster_witness :
  @creates sampleImports
    (snd (@run sampleImports _ _ memClient
            (@initClusterPreCanAlerts sampleImports "c-1") (emptyStore [linuxNode])))
  = @seeds sampleImports "c-1".
Proof.
  apply (@initClusterPreCanAlerts_fresh_cluster sampleImports Store memClient
           "c-1" (emptyStore [linuxNode])).
  vm_compute. reflexivity.
Defined.




End AlertExtras.
